(** * Chaosec: a shallow embedding of [chaosec.py]

    The traffic pattern table, the four protocol generators
    ([generate_dns_noise], [generate_http_noise], [generate_tcp_noise],
    [generate_udp_noise]), the orchestrator ([ChaosecTool.start],
    [ChaosecTool.stop]), the interrupt handler and [main] are translated
    into Rocq functions over an explicit program state.

    Python floats are IEEE 754 binary64 values: they are Rocq's primitive
    floats, and the order facts used below are derived from the
    specification of the primitives ([FloatAxioms]).  Everything the
    program obtains from outside (random draws, outcomes of network calls,
    the clock, signals, writes of other threads to the run flag) is read
    from an environment of oracles, so that every function is executable
    on a concrete environment. *)

From Stdlib Require Import ZArith List String Ascii Bool Lia Floats DecimalString.
Import ListNotations.
Set Warnings "-inexact-float".

Local Open Scope string_scope.
Local Open Scope list_scope.

(** ** Binary64 order facts *)

Module F64.

Definition is_num (x : float) : Prop := Prim2SF x <> S754_nan.

Definition finite_SF (x : spec_float) : bool :=
  match x with
  | S754_zero _ | S754_finite _ _ _ => true
  | S754_infinity _ | S754_nan => false
  end.

Definition is_finite (x : float) : bool := finite_SF (Prim2SF x).

Lemma Pcompare_opp m1 m2 :
  PosDef.Pos.compare_cont Eq m2 m1 = CompOpp (PosDef.Pos.compare_cont Eq m1 m2).
Proof. exact (eq_sym (Pos.compare_cont_antisym m1 m2 Eq)). Qed.

Lemma SFcompare_antisym x y :
  SFcompare y x = option_map CompOpp (SFcompare x y).
Proof.
  destruct x as [sx|sx| |sx mx ex], y as [sy|sy| |sy my ey]; simpl;
    try reflexivity;
    try (destruct sx; reflexivity); try (destruct sy; reflexivity);
    try (destruct sx, sy; reflexivity).
  destruct sx, sy; simpl; try reflexivity;
    rewrite (Z.compare_antisym ex ey);
    destruct (ex ?= ey)%Z; simpl; try reflexivity;
    rewrite (Pcompare_opp mx my); reflexivity.
Qed.

Lemma SFcompare_num x y :
  x <> S754_nan -> y <> S754_nan -> SFcompare x y <> None.
Proof. destruct x, y; simpl; congruence. Qed.


Lemma SFltb_SFleb x y : SFltb x y = true -> SFleb x y = true.
Proof.
  unfold SFltb, SFleb. destruct (SFcompare x y) as [[]|]; congruence.
Qed.

Lemma leb_is_num x y : (x <=? y)%float = true -> is_num x /\ is_num y.
Proof.
  rewrite leb_spec. unfold SFleb, is_num.
  destruct (Prim2SF x), (Prim2SF y); simpl; intros H; split; congruence.
Qed.

Lemma ltb_is_num x y : (x <? y)%float = true -> is_num x /\ is_num y.
Proof.
  rewrite ltb_spec. unfold SFltb, is_num.
  destruct (Prim2SF x), (Prim2SF y); simpl; intros H; split; congruence.
Qed.

(** On numbers, [y < x] is the negation of [x <= y]. *)
Lemma ltb_negb_leb x y :
  is_num x -> is_num y -> (y <? x)%float = negb (x <=? y)%float.
Proof.
  unfold is_num. intros Hx Hy. rewrite ltb_spec, leb_spec.
  unfold SFltb, SFleb. rewrite (SFcompare_antisym (Prim2SF x) (Prim2SF y)).
  pose proof (SFcompare_num _ _ Hx Hy) as Hc.
  destruct (SFcompare (Prim2SF x) (Prim2SF y)) as [[]|]; simpl;
    try reflexivity; congruence.
Qed.


Lemma ltb_leb x y : (x <? y)%float = true -> (x <=? y)%float = true.
Proof. rewrite ltb_spec, leb_spec. apply SFltb_SFleb. Qed.

(** [x <= y] excludes [y < x], NaN or not. *)
Lemma leb_not_ltb x y : (x <=? y)%float = true -> (y <? x)%float = false.
Proof.
  intros H. destruct (leb_is_num _ _ H) as [Hx Hy].
  rewrite (ltb_negb_leb x y Hx Hy), H. reflexivity.
Qed.

Lemma is_nan_false x : is_num x -> is_nan x = false.
Proof.
  unfold is_num, is_nan. intros Hx. rewrite eqb_spec. unfold SFeqb.
  destruct (Prim2SF x) as [s|s| |s m e]; simpl; try congruence;
    try (destruct s; reflexivity).
  destruct s; rewrite Z.compare_refl;
    change (PosDef.Pos.compare_cont Eq m m) with (Pos.compare m m);
    rewrite Pos.compare_refl; reflexivity.
Qed.

(** A value between two finite numbers is finite. *)
Lemma between_finite lo hi x :
  is_finite lo = true -> is_finite hi = true ->
  (lo <=? x)%float = true -> (x <=? hi)%float = true -> is_finite x = true.
Proof.
  unfold is_finite. rewrite !leb_spec. unfold SFleb.
  destruct (Prim2SF lo) as [a|a| |a ma ea], (Prim2SF hi) as [b|b| |b mb eb],
           (Prim2SF x) as [c|c| |c mc ec]; simpl;
    try discriminate; try reflexivity; intros _ _;
    destruct c; simpl; try discriminate; try destruct a; try destruct b;
    simpl; discriminate.
Qed.

(** Rounding a non-negative integer mantissa never produces NaN. *)
Lemma iter_pos_inv {A} (P : A -> Prop) (f : A -> A) :
  (forall a, P a -> P (f a)) -> forall n a, P a -> P (iter_pos f n a).
Proof.
  intros Hf. induction n as [n IH|n IH|]; simpl; intros a Ha; auto.
Qed.

Lemma shr_1_nonneg mrs : (0 <= shr_m mrs)%Z -> (0 <= shr_m (shr_1 mrs))%Z.
Proof.
  destruct mrs as [m r s]. simpl.
  destruct m as [|p|p]; simpl; try lia; destruct p; simpl; lia.
Qed.

Lemma shr_fexp_nonneg m e l :
  (0 <= m)%Z -> (0 <= shr_m (fst (shr_fexp prec emax m e l)))%Z.
Proof.
  intros Hm. unfold shr_fexp, shr.
  assert (H0 : (0 <= shr_m (shr_record_of_loc m l))%Z).
  { destruct l as [|[]]; simpl; exact Hm. }
  destruct (fexp prec emax (Zdigits2 m + e) - e)%Z; simpl; auto.
  apply iter_pos_inv; auto using shr_1_nonneg.
Qed.

Lemma round_nearest_even_nonneg m l :
  (0 <= m)%Z -> (0 <= round_nearest_even m l)%Z.
Proof.
  intros Hm. destruct l as [|[]]; simpl; try lia. destruct (Z.even m); lia.
Qed.

Lemma binary_round_aux_not_nan s m e l :
  (0 <= m)%Z -> binary_round_aux prec emax s m e l <> S754_nan.
Proof.
  intros Hm. unfold binary_round_aux.
  pose proof (shr_fexp_nonneg m e l Hm) as H1.
  destruct (shr_fexp prec emax m e l) as [mrs' e'] eqn:E1. simpl in H1.
  pose proof (shr_fexp_nonneg _ e' loc_Exact
                (round_nearest_even_nonneg _ (loc_of_shr_record mrs') H1)) as H2.
  destruct (shr_fexp prec emax
              (round_nearest_even (shr_m mrs') (loc_of_shr_record mrs'))
              e' loc_Exact) as [mrs'' e''] eqn:E2.
  simpl in H2.
  destruct (shr_m mrs'') as [|p|p]; try discriminate; try lia.
  destruct (e'' <=? emax - prec)%Z; discriminate.
Qed.

(** The product of two finite floats is a number (possibly infinite). *)
Lemma mul_is_num x y :
  is_finite x = true -> is_finite y = true -> is_num (x * y)%float.
Proof.
  unfold is_finite, is_num. rewrite mul_spec.
  destruct (Prim2SF x), (Prim2SF y); simpl; try discriminate; intros _ _.
  apply binary_round_aux_not_nan. lia.
Qed.



(** Zeros of either sign, positive numbers and plus infinity. *)
Definition nonneg_SF (x : spec_float) : bool :=
  match x with
  | S754_zero _ | S754_infinity false | S754_finite false _ _ => true
  | _ => false
  end.

Lemma leb_zero_nonneg x : (0 <=? x)%float = true -> nonneg_SF (Prim2SF x) = true.
Proof.
  rewrite leb_spec. change (Prim2SF 0) with (S754_zero false).
  unfold SFleb. destruct (Prim2SF x) as [s|s| |s m e]; simpl;
    try discriminate; try reflexivity; destruct s; simpl;
    try discriminate; reflexivity.
Qed.

(** Rounding a non-negative integer mantissa with sign [false] gives a
    non-negative result. *)
Lemma binary_round_aux_nonneg m e l :
  (0 <= m)%Z -> nonneg_SF (binary_round_aux prec emax false m e l) = true.
Proof.
  intros Hm. unfold binary_round_aux.
  pose proof (shr_fexp_nonneg m e l Hm) as H1.
  destruct (shr_fexp prec emax m e l) as [mrs' e'] eqn:E1. simpl in H1.
  pose proof (shr_fexp_nonneg _ e' loc_Exact
                (round_nearest_even_nonneg _ (loc_of_shr_record mrs') H1)) as H2.
  destruct (shr_fexp prec emax
              (round_nearest_even (shr_m mrs') (loc_of_shr_record mrs'))
              e' loc_Exact) as [mrs'' e''] eqn:E2.
  simpl in H2.
  destruct (shr_m mrs'') as [|p|p]; try reflexivity; try lia.
  destruct (e'' <=? emax - prec)%Z; reflexivity.
Qed.

(** The product of a non-negative float and a positive finite one is
    non-negative. *)
Lemma mul_nonneg x y my ey :
  (0 <=? x)%float = true -> Prim2SF y = S754_finite false my ey ->
  nonneg_SF (Prim2SF (x * y)) = true.
Proof.
  intros Hx Hy. apply leb_zero_nonneg in Hx. rewrite mul_spec, Hy.
  destruct (Prim2SF x) as [s|s| |s m e]; simpl in *;
    try discriminate; try reflexivity; destruct s; try discriminate;
    try reflexivity.
  apply binary_round_aux_nonneg. lia.
Qed.

(** A negative finite float is below every non-negative one. *)
Lemma neg_leb_nonneg lo z m e :
  Prim2SF lo = S754_finite true m e -> nonneg_SF (Prim2SF z) = true ->
  (lo <=? z)%float = true.
Proof.
  intros Hlo Hz. rewrite leb_spec, Hlo. unfold SFleb.
  destruct (Prim2SF z) as [s|s| |s mz ez]; simpl in *;
    try discriminate; try reflexivity; destruct s; try discriminate;
    reflexivity.
Qed.

(** [x < y] excludes [y <= x]. *)
Lemma ltb_not_leb x y : (x <? y)%float = true -> (y <=? x)%float = false.
Proof.
  intros H. destruct (ltb_is_num _ _ H) as [Hx Hy].
  rewrite (ltb_negb_leb y x Hy Hx) in H.
  destruct (y <=? x)%float; [discriminate | reflexivity].
Qed.

End F64.

(** ** Data model *)

(** Exceptions the program can meet.  [KeyboardInterrupt] and [SystemExit]
    derive from [BaseException] only; the others derive from [Exception].
    [OSError] stands for every failure of a call into [socket],
    [dns.resolver] or [requests] (socket errors and timeouts,
    [dns.exception.DNSException], [requests.RequestException]). *)
Inductive exn : Type :=
| KeyError (key : string)
| IndexError
| ZeroDivisionError
| ValueError
| OverflowError
| AttributeError (type_name attr : string)
| OSError
| KeyboardInterrupt
| SystemExit (code : Z).

(** What [except Exception] catches. *)
Definition is_Exception (e : exn) : bool :=
  match e with
  | KeyboardInterrupt | SystemExit _ => false
  | _ => true
  end.

Inductive protocol : Type := Dns | Http | Tcp | Udp.

(** One entry of [TRAFFIC_PATTERNS]: the inner dict, whose six keys are
    the same in every entry and are only ever read by literal key. *)
Record profile : Type := {
  http_ratio : float;
  dns_ratio : float;
  tcp_ratio : float;
  udp_ratio : float;
  interval_min : float;
  interval_max : float
}.

Definition TRAFFIC_PATTERNS : list (string * profile) :=
  [ ("browsing",
     {| http_ratio := 0.6; dns_ratio := 0.3; tcp_ratio := 0.1;
        udp_ratio := 0.05; interval_min := 1.0; interval_max := 8.0 |});
    ("streaming",
     {| http_ratio := 0.8; dns_ratio := 0.1; tcp_ratio := 0.05;
        udp_ratio := 0.2; interval_min := 0.5; interval_max := 2.0 |});
    ("gaming",
     {| http_ratio := 0.2; dns_ratio := 0.1; tcp_ratio := 0.3;
        udp_ratio := 0.5; interval_min := 0.1; interval_max := 1.0 |});
    ("chaotic",
     {| http_ratio := 1.0; dns_ratio := 1.0; tcp_ratio := 1.0;
        udp_ratio := 1.0; interval_min := 0.1; interval_max := 0.5 |}) ]%float.

(** Dict subscription [d[key]]: [None] is Python's [KeyError]. *)
Fixpoint dict_get {V : Type} (d : list (string * V)) (key : string) : option V :=
  match d with
  | [] => None
  | (k, v) :: rest => if String.eqb k key then Some v else dict_get rest key
  end.

(** The key each generator reads in its gate. *)
Definition ratio (p : protocol) (pf : profile) : float :=
  match p with
  | Dns => dns_ratio pf
  | Http => http_ratio pf
  | Tcp => tcp_ratio pf
  | Udp => udp_ratio pf
  end.

(** [self.stats]: a dict with the four fixed keys "dns", "http", "tcp",
    "udp"; Python integers are unbounded. *)
Record stats : Type := { dns : Z; http : Z; tcp : Z; udp : Z }.

Definition zero_stats : stats := {| dns := 0; http := 0; tcp := 0; udp := 0 |}.

Definition stat (p : protocol) (s : stats) : Z :=
  match p with
  | Dns => dns s
  | Http => http s
  | Tcp => tcp s
  | Udp => udp s
  end.

(** [self.stats[key] += 1] *)
Definition stat_incr (p : protocol) (s : stats) : stats :=
  match p with
  | Dns => {| dns := dns s + 1; http := http s; tcp := tcp s; udp := udp s |}
  | Http => {| dns := dns s; http := http s + 1; tcp := tcp s; udp := udp s |}
  | Tcp => {| dns := dns s; http := http s; tcp := tcp s + 1; udp := udp s |}
  | Udp => {| dns := dns s; http := http s; tcp := tcp s; udp := udp s + 1 |}
  end.

(** Thread targets. *)
Inductive task : Type :=
| generate_dns_noise_task
| generate_http_noise_task
| generate_tcp_noise_task
| generate_udp_noise_task
| print_stats_task.

Definition generator_task (p : protocol) : task :=
  match p with
  | Dns => generate_dns_noise_task
  | Http => generate_http_noise_task
  | Tcp => generate_tcp_noise_task
  | Udp => generate_udp_noise_task
  end.

Definition is_generator (t : task) : bool :=
  match t with
  | print_stats_task => false
  | _ => true
  end.

Inductive level : Type := INFO | WARNING | ERROR.

(** The log lines of the program, with the values they interpolate. *)
Inductive logmsg : Type :=
| msg_starting (pattern : string) (intensity : float)
| msg_active_modules (modules : string)
| msg_tor_mode
| msg_generator_active (p : protocol)
| msg_no_generators
| msg_stopping
| msg_stopped
| msg_interrupt
| msg_intensity_range
| msg_stats (s : stats).

Inductive socket_kind : Type := SOCK_STREAM | SOCK_DGRAM.

(** Observable actions.  A call that can fail records whether it did. *)
Inductive event : Type :=
| Sleep (seconds : float)
| Resolve (domain qtype : string) (ok : bool)
| HttpGet (url user_agent : string) (ok : bool)
| HttpPost (url user_agent timestamp session : string) (ok : bool)
| Socket (kind : socket_kind) (ok : bool)
| SetTimeout (seconds : Z)
| Connect (target : string) (port : Z) (ok : bool)
| Send (data : string) (ok : bool)
| Recv (bufsize : Z) (ok : bool)
| Sendto (payload ip : string) (port : Z) (ok : bool)
| Close
| PrintBanner
| Log (lv : level) (msg : logmsg)
| ThreadStart (t : task)
| ThreadJoin (t : task) (timeout : float)
| SignalInstall
| ParserError (option : string).

(** The environment.  Every call that asks the outside world something
    takes the next tick; the oracles are indexed by ticks. *)
Record env : Type := {
  rnd : nat -> float;        (* random.random() *)
  pick : nat -> nat;         (* the raw integer behind choice, randint, getrandbits *)
  net : nat -> bool;         (* does this network call succeed *)
  cleared : nat -> bool;     (* has another thread run [running = False] by now *)
  now : nat -> string;       (* str(datetime.now()) *)
  is_private : string -> bool; (* ipaddress.ip_address(ip).is_private *)
  sigint : nat -> bool;      (* does SIGINT arrive during this main-thread sleep *)
  resolv_conf : bool         (* can dns.resolver read the system's resolver configuration *)
}.

(** Program state: the global [running], the fields of the one
    [ChaosecTool] object, the SIGINT disposition, and the history. *)
Record state : Type := {
  running : bool;
  threads : list task;
  intensity : float;
  pattern : string;
  tor_mode : bool;
  self_stats : stats;
  handler_installed : bool;
  tick : nat;
  trace : list event
}.

Definition set_running (b : bool) (s : state) : state :=
  {| running := b; threads := threads s; intensity := intensity s;
     pattern := pattern s; tor_mode := tor_mode s; self_stats := self_stats s;
     handler_installed := handler_installed s; tick := tick s;
     trace := trace s |}.

Definition set_threads (l : list task) (s : state) : state :=
  {| running := running s; threads := l; intensity := intensity s;
     pattern := pattern s; tor_mode := tor_mode s; self_stats := self_stats s;
     handler_installed := handler_installed s; tick := tick s;
     trace := trace s |}.

Definition set_config (i : float) (p : string) (t : bool) (s : state) : state :=
  {| running := running s; threads := threads s; intensity := i;
     pattern := p; tor_mode := t; self_stats := self_stats s;
     handler_installed := handler_installed s; tick := tick s;
     trace := trace s |}.

Definition set_stats (st : stats) (s : state) : state :=
  {| running := running s; threads := threads s; intensity := intensity s;
     pattern := pattern s; tor_mode := tor_mode s; self_stats := st;
     handler_installed := handler_installed s; tick := tick s;
     trace := trace s |}.

Definition set_handler (b : bool) (s : state) : state :=
  {| running := running s; threads := threads s; intensity := intensity s;
     pattern := pattern s; tor_mode := tor_mode s; self_stats := self_stats s;
     handler_installed := b; tick := tick s; trace := trace s |}.

Definition set_tick (n : nat) (s : state) : state :=
  {| running := running s; threads := threads s; intensity := intensity s;
     pattern := pattern s; tor_mode := tor_mode s; self_stats := self_stats s;
     handler_installed := handler_installed s; tick := n; trace := trace s |}.

Definition set_trace (tr : list event) (s : state) : state :=
  {| running := running s; threads := threads s; intensity := intensity s;
     pattern := pattern s; tor_mode := tor_mode s; self_stats := self_stats s;
     handler_installed := handler_installed s; tick := tick s; trace := tr |}.

(** Module-level [running = True] and [ChaosecTool.__init__]. *)
Definition initial_state : state :=
  {| running := true; threads := []; intensity := 1.0%float;
     pattern := "browsing"; tor_mode := false; self_stats := zero_stats;
     handler_installed := false; tick := 0; trace := [] |}.

(** ** The monad: environment, state, exceptions, fuel

    A raised exception keeps the state reached so far, as in Python.
    [OutOfFuel] is not a Python outcome: it marks a loop that was still
    going when the fuel given to it ran out. *)
Inductive outcome (A : Type) : Type :=
| Ret (a : A)
| Raise (e : exn)
| OutOfFuel.
Arguments Ret {A} a.
Arguments Raise {A} e.
Arguments OutOfFuel {A}.

Definition M (A : Type) : Type := env -> state -> outcome A * state.

Definition ret {A} (a : A) : M A := fun _ s => (Ret a, s).

Definition bind {A B} (m : M A) (k : A -> M B) : M B :=
  fun e s =>
    match m e s with
    | (Ret a, s') => k a e s'
    | (Raise x, s') => (Raise x, s')
    | (OutOfFuel, s') => (OutOfFuel, s')
    end.

Definition raise {A} (x : exn) : M A := fun _ s => (Raise x, s).
Definition out_of_fuel {A} : M A := fun _ s => (OutOfFuel, s).

Declare Scope py_scope.
Delimit Scope py_scope with py.
Notation "x <- m ;; k" := (bind m (fun x => k))
  (at level 61, m at next level, right associativity) : py_scope.
Notation "m ;; k" := (bind m (fun _ => k))
  (at level 61, right associativity) : py_scope.
Local Open Scope py_scope.

Definition gets {A} (f : state -> A) : M A := fun _ s => (Ret (f s), s).
Definition modify (f : state -> state) : M unit := fun _ s => (Ret tt, f s).
Definition ask {A} (f : env -> A) : M A := fun e s => (Ret (f e), s).

(** Take the next tick. *)
Definition next_tick : M nat :=
  fun _ s => (Ret (tick s), set_tick (S (tick s)) s).

Definition emit (ev : event) : M unit :=
  modify (fun s => set_trace (trace s ++ [ev]) s).

(** [try: body  except Exception: pass] *)
Definition try_except_pass (body : M unit) : M unit :=
  fun e s =>
    match body e s with
    | (Raise x, s') => if is_Exception x then (Ret tt, s') else (Raise x, s')
    | r => r
    end.

(** [try: body  except KeyboardInterrupt: handler] *)
Definition try_except_KeyboardInterrupt (body handler : M unit) : M unit :=
  fun e s =>
    match body e s with
    | (Raise KeyboardInterrupt, s') => handler e s'
    | r => r
    end.

(** ** Library calls *)

Definition random_random : M float :=
  t <- next_tick ;; ask (fun e => rnd e t).

(** [random._randbelow(n)] for [n > 0]. *)
Definition randbelow (n : nat) : M nat :=
  t <- next_tick ;; ask (fun e => Nat.modulo (pick e t) n).

(** [random.choice(seq)]: [seq[_randbelow(len(seq))]]; an empty sequence
    raises [IndexError]. *)
Definition random_choice {A} (seq : list A) : M A :=
  match seq with
  | [] => raise IndexError
  | x :: _ => i <- randbelow (List.length seq) ;; ret (nth i seq x)
  end.

(** [random.randint(a, b)]: [a + _randbelow(b - a + 1)]. *)
Definition random_randint (a b : Z) : M Z :=
  i <- randbelow (Z.to_nat (b - a + 1)) ;; ret (a + Z.of_nat i)%Z.

(** [random.getrandbits(8)] *)
Definition random_getrandbits8 : M ascii :=
  i <- randbelow 256 ;; ret (ascii_of_nat i).

(** [random.uniform(a, b)]: [a + (b - a) * random()]. *)
Definition random_uniform (a b : float) : M float :=
  u <- random_random ;; ret (a + (b - a) * u)%float.

(** Float division: a zero divisor raises. *)
Definition truediv (x y : float) : M float :=
  if (y =? 0)%float then raise ZeroDivisionError else ret (x / y)%float.

(** The builtin [max(a, b)]: the first argument unless the second is
    greater. *)
Definition py_max (a b : float) : float :=
  if (a <? b)%float then b else a.

(** The bound of CPython's [_PyTime_t], a signed 64-bit count of
    nanoseconds: 2^63. *)
Definition PyTime_limit : float := 9223372036854775808.0%float.

(** The duration [d], in seconds, as a count of nanoseconds. *)
Definition nanoseconds (d : float) : float := (d * 1e9)%float.

(** [time.sleep(d)] as CPython 3.11 has it ([time_sleep] in timemodule.c
    over [_PyTime_FromSecondsObject]).  A NaN is refused with
    [ValueError].  The duration is then converted to a [_PyTime_t]: the
    product [d * 1e9] is rounded away from zero to an integer, and
    [OverflowError] is raised unless it lies between -2^63 and 2^63.
    Last, a negative count is refused with [ValueError].  Both bounds
    are integers, so the rounding does not move the product across them,
    and the rounded count is negative exactly when [d] is; the product
    2^63 itself passes the range test and converts to the count -2^63,
    which is negative.  So the durations that are slept are the
    non-negative ones below 2^63 nanoseconds (about 292 years). *)
Definition time_sleep (d : float) : M unit :=
  if is_nan d then raise ValueError
  else if negb ((- PyTime_limit <=? nanoseconds d)%float
                && (nanoseconds d <=? PyTime_limit)%float)
  then raise OverflowError
  else if ((d <? 0)%float || (PyTime_limit <=? nanoseconds d)%float)%bool
  then raise ValueError
  else emit (Sleep d).

(** A call into the network libraries: the oracle decides its success,
    the attempt is recorded either way. *)
Definition net_call (ev : bool -> event) : M unit :=
  t <- next_tick ;;
  ok <- ask (fun e => net e t) ;;
  emit (ev ok) ;;
  if ok then ret tt else raise OSError.

(** [bytes.format]: Python 3 [bytes] objects have no [format] attribute
    (only [str] has it), so looking it up raises [AttributeError] before
    any argument is evaluated. *)
Definition bytes_format (template arg : string) : M string :=
  raise (AttributeError "bytes" "format").

Definition str_int (n : Z) : string := NilZero.string_of_int (Z.to_int n).

Fixpoint bytes_of (codes : list nat) : string :=
  match codes with
  | [] => EmptyString
  | c :: rest => String (ascii_of_nat c) (bytes_of rest)
  end.

Definition CRLF : string := bytes_of [13; 10]%nat.

Fixpoint string_of_list (l : list ascii) : string :=
  match l with
  | [] => EmptyString
  | c :: rest => String c (string_of_list rest)
  end.

(** Run [m] [n] times and collect the results. *)
Fixpoint replicateM {A} (n : nat) (m : M A) : M (list A) :=
  match n with
  | O => ret []
  | S k => x <- m ;; xs <- replicateM k m ;; ret (x :: xs)
  end.

(** ** The protocol generators *)

(** [TRAFFIC_PATTERNS[self.pattern]] *)
Definition traffic_pattern : M profile :=
  name <- gets pattern ;;
  match dict_get TRAFFIC_PATTERNS name with
  | Some pf => ret pf
  | None => raise (KeyError name)
  end.

(** The head of every generator's loop body, with the key of its own
    protocol (lines 195-197, 257-259, 313-315, 372-374):
<<
    if random.random() > TRAFFIC_PATTERNS[self.pattern][key] * self.intensity:
        time.sleep(0.1)
        continue
>>
    [rest] is the remainder of the body, which [continue] skips. *)
Definition gated (p : protocol) (rest : M unit) : M unit :=
  u <- random_random ;;
  pf <- traffic_pattern ;;
  i <- gets intensity ;;
  if (ratio p pf * i <? u)%float then time_sleep 0.1%float else rest.

(** [self.stats[key] += 1] *)
Definition record (p : protocol) : M unit :=
  modify (fun s => set_stats (stat_incr p (self_stats s)) s).

(** The Tor-mode adjustment of the drawn delay:
<<
    if self.tor_mode and sleep_time < 1.0:
        sleep_time = max(sleep_time, 1.0)
>> *)
Definition tor_floor (tor : bool) (sleep_time : float) : float :=
  if (tor && (sleep_time <? 1.0)%float)%bool then py_max sleep_time 1.0%float
  else sleep_time.

(** The tail of every generator's loop body (lines 214-223, 277-286,
    339-348, 402-411, the same text four times). *)
Definition pace : M unit :=
  lo <- traffic_pattern ;;
  hi <- traffic_pattern ;;
  drawn <- random_uniform (interval_min lo) (interval_max hi) ;;
  i <- gets intensity ;;
  sleep_time <- truediv drawn i ;;
  tor <- gets tor_mode ;;
  time_sleep (tor_floor tor sleep_time).

Definition domains : list string :=
  [ "google.com"; "facebook.com"; "amazon.com"; "github.com";
    "wikipedia.org"; "twitter.com"; "instagram.com"; "reddit.com";
    "netflix.com"; "youtube.com"; "twitch.tv"; "apple.com";
    "microsoft.com"; "yahoo.com"; "cloudflare.com"; "akamai.com";
    "gitlab.com"; "medium.com"; "spotify.com"; "mozilla.org";
    "stackoverflow.com"; "debian.org"; "ubuntu.com"; "archlinux.org";
    "linux.org"; "kernel.org"; "gnu.org"; "python.org";
    "rust-lang.org"; "golang.org"; "nasa.gov" ].

Definition subdomains : list string :=
  [ "www"; "mail"; "api"; "blog"; "shop"; "store"; "dev"; "admin";
    "cdn"; "img"; "media"; "video"; "static"; "app"; "mobile"; "m" ].

Definition qtypes : list string := [ "A"; "AAAA"; "MX"; "TXT"; "NS" ].

(** Lines 199-208: one DNS query. *)
Definition dns_act : M unit :=
  c <- random_random ;;
  domain <- (if (0.5 <? c)%float
             then subdomain <- random_choice subdomains ;;
                  d <- random_choice domains ;;
                  ret (subdomain ++ "." ++ d)%string
             else random_choice domains) ;;
  qtype <- random_choice qtypes ;;
  net_call (Resolve domain qtype).

Definition urls : list string :=
  [ "https://httpbin.org/get"; "https://en.wikipedia.org/wiki/Special:Random";
    "https://www.eff.org"; "https://www.torproject.org";
    "https://www.mozilla.org"; "https://www.kernel.org";
    "https://www.debian.org"; "https://www.ubuntu.com";
    "https://www.archlinux.org"; "https://www.python.org";
    "https://www.rust-lang.org"; "https://www.gnu.org";
    "https://www.fsf.org"; "https://www.linuxfoundation.org";
    "https://www.opensuse.org"; "https://www.redhat.com";
    "https://www.kali.org"; "https://www.gnome.org" ].

Definition user_agents : list string :=
  [ "Mozilla/5.0 (Windows NT 10.0; Win64; x64) AppleWebKit/537.36 (KHTML, like Gecko) Chrome/91.0.4472.124 Safari/537.36";
    "Mozilla/5.0 (X11; Linux x86_64; rv:89.0) Gecko/20100101 Firefox/89.0";
    "Mozilla/5.0 (Macintosh; Intel Mac OS X 10_15_7) AppleWebKit/605.1.15 (KHTML, like Gecko) Version/14.1.1 Safari/605.1.15";
    "Mozilla/5.0 (X11; Linux x86_64) AppleWebKit/537.36 (KHTML, like Gecko) Chrome/92.0.4515.107 Safari/537.36";
    "Mozilla/5.0 (Windows NT 10.0; Win64; x64) AppleWebKit/537.36 (KHTML, like Gecko) Chrome/92.0.4515.131 Safari/537.36 Edg/92.0.902.67";
    "Mozilla/5.0 (iPhone; CPU iPhone OS 14_7_1 like Mac OS X) AppleWebKit/605.1.15 (KHTML, like Gecko) Version/14.1.2 Mobile/15E148 Safari/604.1" ].

Definition datetime_now : M string :=
  t <- next_tick ;; ask (fun e => now e t).

(** Lines 261-271: one HTTP request. *)
Definition http_act : M unit :=
  url <- random_choice urls ;;
  user_agent <- random_choice user_agents ;;
  c <- random_random ;;
  if (0.8 <? c)%float
  then timestamp <- datetime_now ;;
       session <- random_randint 1000 9999 ;;
       net_call (HttpPost url user_agent timestamp (str_int session))
  else net_call (HttpGet url user_agent).

Definition tcp_ports : list Z :=
  [80; 443; 8080; 8443; 22; 25; 143; 993; 587; 110; 995]%Z.

Definition targets : list string :=
  [ "mozilla.org"; "kernel.org";
    "debian.org"; "ubuntu.com"; "archlinux.org";
    "python.org"; "rust-lang.org"; "golang.org";
    "gnu.org"; "fsf.org"; "linuxfoundation.org";
    "opensuse.org"; "redhat.com"; "kali.org" ].

Definition http_requests : list string :=
  [ "GET / HTTP/1.1" ++ CRLF ++ "Host: {}" ++ CRLF
      ++ "User-Agent: Mozilla/5.0" ++ CRLF ++ CRLF;
    "HEAD / HTTP/1.1" ++ CRLF ++ "Host: {}" ++ CRLF
      ++ "User-Agent: Chrome/92.0" ++ CRLF ++ CRLF;
    "GET /index.html HTTP/1.1" ++ CRLF ++ "Host: {}" ++ CRLF
      ++ "User-Agent: Firefox/89.0" ++ CRLF ++ CRLF;
    "GET /about HTTP/1.1" ++ CRLF ++ "Host: {}" ++ CRLF
      ++ "User-Agent: Safari/605.1" ++ CRLF ++ CRLF ]%string.

(** [port in [80, 443, 8080, 8443]] *)
Definition is_http_port (port : Z) : bool :=
  existsb (Z.eqb port) [80; 443; 8080; 8443]%Z.

(** Lines 317-333: one TCP connection.  [request] is a [bytes] literal,
    so line 327 goes through [bytes_format]. *)
Definition tcp_act : M unit :=
  target <- random_choice targets ;;
  port <- random_choice tcp_ports ;;
  net_call (Socket SOCK_STREAM) ;;
  emit (SetTimeout 5) ;;
  net_call (Connect target port) ;;
  (if is_http_port port
   then request <- random_choice http_requests ;;
        data <- bytes_format request target ;;
        net_call (Send data) ;;
        c <- random_random ;;
        (if (0.7 <? c)%float then net_call (Recv 4096) else ret tt)
   else ret tt) ;;
  emit Close.

Definition udp_ports : list Z :=
  [53; 123; 161; 162; 1900; 5353; 27015; 3478; 3479]%Z.

Definition dns_payload : string :=
  bytes_of [0; 1; 1; 0; 0; 1; 0; 0; 0; 0; 0; 0;
            3; 119; 119; 119;
            7; 109; 111; 122; 105; 108; 108; 97;
            3; 111; 114; 103; 0;
            0; 1; 0; 1]%nat.

Definition ntp_payload : string := bytes_of (27 :: repeat 0 47)%nat.

(** Lines 359-363: draw addresses until one is not private.  The source
    loop is unbounded; [fuel] bounds the number of draws. *)
Fixpoint get_random_ip (fuel : nat) : M string :=
  match fuel with
  | O => out_of_fuel
  | S f =>
      octets <- replicateM 4 (n <- random_randint 1 254 ;; ret (str_int n)) ;;
      let ip := String.concat "." octets in
      priv <- ask (fun e => is_private e ip) ;;
      if negb priv then ret ip else get_random_ip f
  end.

(** Lines 376-396: one UDP datagram. *)
Definition udp_act (fuel : nat) : M unit :=
  net_call (Socket SOCK_DGRAM) ;;
  port <- random_choice udp_ports ;;
  payload <- (if (port =? 53)%Z then ret dns_payload
              else if (port =? 123)%Z then ret ntp_payload
              else n <- random_randint 16 128 ;;
                   bs <- replicateM (Z.to_nat n) random_getrandbits8 ;;
                   ret (string_of_list bs)) ;;
  c <- random_random ;;
  target_ip <- (if (0.5 <? c)%float then get_random_ip fuel
                else ret "8.8.8.8") ;;
  net_call (Sendto payload target_ip port) ;;
  emit Close.

(** The part of a loop body that the gate lets through: one unit of
    traffic.  [fuel] is only used by the UDP address draw. *)
Definition act (p : protocol) (fuel : nat) : M unit :=
  match p with
  | Dns => dns_act
  | Http => http_act
  | Tcp => tcp_act
  | Udp => udp_act fuel
  end.

(** The body of the [try] block of generator [p]. *)
Definition iteration (p : protocol) (fuel : nat) : M unit :=
  gated p (act p fuel ;; record p ;; pace).

(** A generator thread evaluating [running]: another thread may have
    cleared the global since the last look. *)
Definition read_running : M bool :=
  t <- next_tick ;;
  c <- ask (fun e => cleared e t) ;;
  (if c then modify (set_running false) else ret tt) ;;
  gets running.

(** [while running: try: body  except Exception: pass], at most [fuel]
    turns of the loop. *)
Fixpoint generator_loop (body : M unit) (fuel : nat) : M unit :=
  match fuel with
  | O => out_of_fuel
  | S f =>
      r <- read_running ;;
      if r then try_except_pass body ;; generator_loop body f
      else ret tt
  end.

(** Line 190, [resolver = dns.resolver.Resolver()]: the constructor reads
    the system's resolver configuration and raises
    [dns.resolver.NoResolverConfiguration] when it finds no usable one. *)
Definition dns_resolver_Resolver : M unit :=
  ok <- ask resolv_conf ;;
  if ok then ret tt else raise OSError.

(** Line 252, [session = requests.Session()]: builds the session object;
    no input or output is involved. *)
Definition requests_Session : M unit := ret tt.

(** What a generator does before its loop, outside the [try]: the DNS
    generator builds its resolver, the HTTP generator its session; the
    TCP and UDP generators only bind their constant lists. *)
Definition setup (p : protocol) : M unit :=
  match p with
  | Dns => dns_resolver_Resolver
  | Http => requests_Session
  | Tcp | Udp => ret tt
  end.

(** A generator method: its setup, then at most [fuel] turns of its
    loop. *)
Definition generate (p : protocol) (fuel : nat) : M unit :=
  setup p ;; generator_loop (iteration p fuel) fuel.

Definition generate_dns_noise := generate Dns.
Definition generate_http_noise := generate Http.
Definition generate_tcp_noise := generate Tcp.
Definition generate_udp_noise := generate Udp.

(** ** The orchestrator and the command line *)

(** The namespace [parser.parse_args()] returns. *)
Record args : Type := {
  dns_noise : bool;
  http_flood : bool;
  tcp_noise : bool;
  udp_noise : bool;
  args_pattern : string;
  args_intensity : float;
  args_tor_mode : bool;
  verbose : bool;
  mode : string
}.

Definition with_pattern (p : string) (a : args) : args :=
  {| dns_noise := dns_noise a; http_flood := http_flood a;
     tcp_noise := tcp_noise a; udp_noise := udp_noise a;
     args_pattern := p; args_intensity := args_intensity a;
     args_tor_mode := args_tor_mode a; verbose := verbose a;
     mode := mode a |}.

Definition enabled (p : protocol) (a : args) : bool :=
  match p with
  | Dns => dns_noise a
  | Http => http_flood a
  | Tcp => tcp_noise a
  | Udp => udp_noise a
  end.

Definition flag_text (b : bool) (text : string) : string :=
  if b then text else EmptyString.

(** [_show_banner] *)
Definition show_banner (a : args) : M unit :=
  emit PrintBanner ;;
  p <- gets pattern ;;
  i <- gets intensity ;;
  emit (Log INFO (msg_starting p i)) ;;
  emit (Log INFO (msg_active_modules
                    (flag_text (dns_noise a) "DNS " ++
                     flag_text (http_flood a) "HTTP " ++
                     flag_text (tcp_noise a) "TCP " ++
                     flag_text (udp_noise a) "UDP ")%string)) ;;
  tor <- gets tor_mode ;;
  if tor then emit (Log INFO msg_tor_mode) else ret tt.

(** [thread = threading.Thread(target=t); thread.daemon = True;
    thread.start(); self.threads.append(thread)] *)
Definition spawn (t : task) : M unit :=
  emit (ThreadStart t) ;;
  modify (fun s => set_threads (threads s ++ [t]) s).

Definition spawn_generator (p : protocol) (a : args) : M unit :=
  if enabled p a
  then spawn (generator_task p) ;; emit (Log INFO (msg_generator_active p))
  else ret tt.

Fixpoint join_all (ts : list task) : M unit :=
  match ts with
  | [] => ret tt
  | t :: rest => emit (ThreadJoin t 1.0%float) ;; join_all rest
  end.

(** [ChaosecTool.stop] *)
Definition stop : M unit :=
  modify (set_running false) ;;
  emit (Log INFO msg_stopping) ;;
  ts <- gets threads ;;
  join_all ts ;;
  emit (Log INFO msg_stopped).

(** [signal_handler]; [sys.exit(0)] raises [SystemExit(0)]. *)
Definition signal_handler : M unit :=
  modify (set_running false) ;;
  emit (Log INFO msg_interrupt) ;;
  raise (SystemExit 0).

(** A SIGINT reaching the main thread: the installed handler runs there,
    or Python's default handler raises [KeyboardInterrupt]. *)
Definition deliver_sigint : M unit :=
  h <- gets handler_installed ;;
  if h then signal_handler else raise KeyboardInterrupt.

(** [time.sleep] in the main thread, where signals are handled. *)
Definition time_sleep_main (d : float) : M unit :=
  time_sleep d ;;
  t <- next_tick ;;
  sig <- ask (fun e => sigint e t) ;;
  if sig then deliver_sigint else ret tt.

(** [while running: time.sleep(1)] *)
Fixpoint keep_alive (fuel : nat) : M unit :=
  match fuel with
  | O => out_of_fuel
  | S f =>
      r <- gets running ;;
      if r then time_sleep_main 1.0%float ;; keep_alive f else ret tt
  end.

(** Lines 77-118 of [ChaosecTool.start]: take the configuration, show
    the banner, start the selected threads. *)
Definition prepare (a : args) : M unit :=
  modify (set_config (args_intensity a) (args_pattern a) (args_tor_mode a)) ;;
  show_banner a ;;
  spawn_generator Dns a ;;
  spawn_generator Http a ;;
  spawn_generator Tcp a ;;
  spawn_generator Udp a ;;
  (if verbose a then spawn print_stats_task else ret tt).

(** [ChaosecTool.start] *)
Definition start (a : args) (fuel : nat) : M unit :=
  prepare a ;;
  if negb (dns_noise a || http_flood a || tcp_noise a || udp_noise a)
  then emit (Log WARNING msg_no_generators)
  else try_except_KeyboardInterrupt (keep_alive fuel) stop.

(** [_print_stats] *)
Fixpoint print_stats (fuel : nat) : M unit :=
  match fuel with
  | O => out_of_fuel
  | S f =>
      r <- read_running ;;
      if r
      then time_sleep 10.0%float ;;
           s <- gets self_stats ;;
           emit (Log INFO (msg_stats s)) ;;
           modify (set_stats zero_stats) ;;
           print_stats f
      else ret tt
  end.

Definition pattern_choices : list string :=
  [ "browsing"; "streaming"; "gaming"; "chaotic" ].

Definition mode_choices : list string := [ "standard"; "chaotic" ].

(** [parser.parse_args()] on a command line that argparse can read:
    known options only, a float literal after [--intensity], no
    [--help].  (Any other command line is ended by argparse itself,
    with status 2, or 0 after [--help], before [main] sees a value.)
    [raw] holds the option values converted to their types.  A value
    outside the [choices] of its option makes argparse report the error
    and call [sys.exit(2)]; when both [--pattern] and [--mode] are
    outside, argparse names the one that comes first on the command
    line, taken here to be [--pattern]. *)
Definition parse_args (raw : args) : M args :=
  if negb (existsb (String.eqb (args_pattern raw)) pattern_choices)
  then emit (ParserError "--pattern") ;; raise (SystemExit 2)
  else if negb (existsb (String.eqb (mode raw)) mode_choices)
  then emit (ParserError "--mode") ;; raise (SystemExit 2)
  else ret raw.

(** [ChaosecTool.__init__] *)
Definition tool_init : M unit :=
  modify (fun s =>
            set_stats zero_stats
              (set_config 1.0%float "browsing" false (set_threads [] s))).

(** Lines 457-459: the legacy [--mode]. *)
Definition apply_mode (a : args) : args :=
  if (String.eqb (mode a) "chaotic"
      && String.eqb (args_pattern a) "browsing")%bool
  then with_pattern "chaotic" a
  else a.

(** Lines 461-466: what [main] does once the arguments are accepted. *)
Definition launch (a : args) (fuel : nat) : M unit :=
  emit SignalInstall ;;
  modify (set_handler true) ;;
  tool_init ;;
  start a fuel.

(** [main] *)
Definition main (raw : args) (fuel : nat) : M unit :=
  a <- parse_args raw ;;
  (if ((args_intensity a <? 0.1)%float || (10.0 <? args_intensity a)%float)%bool
   then emit (Log ERROR msg_intensity_range) ;; raise (SystemExit 1)
   else ret tt) ;;
  launch (apply_mode a) fuel.

(** The exit status of the process, once the main thread is done. *)
Definition exit_status {A} (o : outcome A) : option Z :=
  match o with
  | Ret _ => Some 0%Z
  | Raise (SystemExit c) => Some c
  | Raise _ => Some 1%Z
  | OutOfFuel => None
  end.

(** Evaluate the monad operations and the state updates, and nothing
    else. *)
Ltac run :=
  cbv beta iota zeta delta
    [bind ret raise out_of_fuel gets modify ask emit next_tick
     set_running set_threads set_config set_stats set_handler set_tick
     set_trace running threads intensity pattern tor_mode self_stats
     handler_installed tick trace fst snd].

Lemma bind_Ret {A B} (m : M A) (k : A -> M B) e s a s1 :
  m e s = (Ret a, s1) -> bind m k e s = k a e s1.
Proof. intros H. unfold bind. rewrite H. reflexivity. Qed.

Lemma bind_Raise {A B} (m : M A) (k : A -> M B) e s x s1 :
  m e s = (Raise x, s1) -> bind m k e s = (Raise x, s1).
Proof. intros H. unfold bind. rewrite H. reflexivity. Qed.

(** ** Reading a trace *)

Definition is_sleep (ev : event) : bool :=
  match ev with Sleep _ => true | _ => false end.

Definition is_thread_start (ev : event) : bool :=
  match ev with ThreadStart _ => true | _ => false end.

Definition is_generator_start (ev : event) : bool :=
  match ev with ThreadStart t => is_generator t | _ => false end.

Definition is_thread_join (ev : event) : bool :=
  match ev with ThreadJoin _ _ => true | _ => false end.

(** A call that went out to the network, whatever its outcome. *)
Definition is_traffic (ev : event) : bool :=
  match ev with
  | Resolve _ _ _ | HttpGet _ _ _ | HttpPost _ _ _ _ _ | Connect _ _ _
  | Send _ _ | Recv _ _ | Sendto _ _ _ _ => true
  | _ => false
  end.

Definition is_send (ev : event) : bool :=
  match ev with Send _ _ => true | _ => false end.

(** A network call that failed. *)
Definition is_failure (ev : event) : bool :=
  match ev with
  | Resolve _ _ false | HttpGet _ _ false | HttpPost _ _ _ _ false
  | Socket _ false | Connect _ _ false | Send _ false | Recv _ false
  | Sendto _ _ _ false => true
  | _ => false
  end.

(** ** The profile table *)


(** C6.  For every pattern name in the known set {browsing, streaming,
    gaming, chaotic}, the table lookup returns a profile whose four
    per-protocol ratios lie in [0,1] and whose interval_min is at most
    its interval_max. *)
Theorem C6_known_profiles_well_formed (name : string) :
  In name ["browsing"; "streaming"; "gaming"; "chaotic"] ->
  exists pf,
    dict_get TRAFFIC_PATTERNS name = Some pf /\
    (forall p, (0 <=? ratio p pf)%float = true /\
               (ratio p pf <=? 1)%float = true) /\
    (interval_min pf <=? interval_max pf)%float = true.
Proof.
  intros Hin. simpl in Hin.
  destruct Hin as [<-|[<-|[<-|[<-|[]]]]];
    (eexists; split; [reflexivity|]; split;
     [intros []; split; reflexivity | reflexivity]).
Qed.

Lemma C6_known_profiles_well_formed_witness :
  In "gaming" ["browsing"; "streaming"; "gaming"; "chaotic"] /\
  exists pf,
    dict_get TRAFFIC_PATTERNS "gaming" = Some pf /\
    (forall p, (0 <=? ratio p pf)%float = true /\
               (ratio p pf <=? 1)%float = true) /\
    (interval_min pf <=? interval_max pf)%float = true.
Proof.
  assert (H : In "gaming" ["browsing"; "streaming"; "gaming"; "chaotic"])
    by (simpl; tauto).
  split; [exact H | exact (C6_known_profiles_well_formed "gaming" H)].
Defined.

(** ** Command-line validation *)

Lemma parse_args_accepts raw e s :
  In (args_pattern raw) pattern_choices ->
  In (mode raw) mode_choices ->
  parse_args raw e s = (Ret raw, s).
Proof.
  intros Hp Hm. unfold parse_args.
  assert (E1 : existsb (String.eqb (args_pattern raw)) pattern_choices = true).
  { apply existsb_exists. exists (args_pattern raw). split; [exact Hp|].
    apply String.eqb_refl. }
  assert (E2 : existsb (String.eqb (mode raw)) mode_choices = true).
  { apply existsb_exists. exists (mode raw). split; [exact Hm|].
    apply String.eqb_refl. }
  rewrite E1, E2. reflexivity.
Qed.

(** Whether [main]'s range test (line 453) rejects an intensity. *)
Definition out_of_range (i : float) : bool :=
  ((i <? 0.1)%float || (10.0 <? i)%float)%bool.

Lemma main_rejects_intensity raw fuel e s :
  In (args_pattern raw) pattern_choices ->
  In (mode raw) mode_choices ->
  out_of_range (args_intensity raw) = true ->
  main raw fuel e s =
    (Raise (SystemExit 1),
     set_trace (trace s ++ [Log ERROR msg_intensity_range]) s).
Proof.
  intros Hp Hm Hr. unfold main, bind.
  rewrite (parse_args_accepts raw e s Hp Hm).
  unfold out_of_range in Hr. rewrite Hr. reflexivity.
Qed.

Lemma main_accepts_intensity raw fuel e s :
  In (args_pattern raw) pattern_choices ->
  In (mode raw) mode_choices ->
  out_of_range (args_intensity raw) = false ->
  main raw fuel e s = launch (apply_mode raw) fuel e s.
Proof.
  intros Hp Hm Hr. unfold main, bind.
  rewrite (parse_args_accepts raw e s Hp Hm).
  unfold out_of_range in Hr. rewrite Hr. reflexivity.
Qed.

Lemma main_rejects_pattern raw fuel e s :
  existsb (String.eqb (args_pattern raw)) pattern_choices = false ->
  main raw fuel e s =
    (Raise (SystemExit 2),
     set_trace (trace s ++ [ParserError "--pattern"]) s).
Proof.
  intros Hp. unfold main, bind, parse_args. rewrite Hp. reflexivity.
Qed.

(** C7.  The command line rejects, before any generator is started and
    with a non-zero exit status, the intensities 0.09 and 10.01 (status 1,
    after logging the range error) and the pattern name "stealth"
    (status 2, from the argument parser); it accepts the intensities 0.1,
    1.0 and 10.0, the bounds included, and goes on to install the handler
    and start the tool with that intensity. *)
Theorem C7_configuration_rejects_and_accepts
    (raw : args) (fuel : nat) (e : env) :
  (In (args_pattern raw) pattern_choices ->
   In (mode raw) mode_choices ->
   In (args_intensity raw) [0.09; 10.01]%float ->
   let r := main raw fuel e initial_state in
   exit_status (fst r) = Some 1%Z /\
   trace (snd r) = [Log ERROR msg_intensity_range] /\
   threads (snd r) = []) /\
  (args_pattern raw = "stealth" ->
   let r := main raw fuel e initial_state in
   exit_status (fst r) = Some 2%Z /\
   trace (snd r) = [ParserError "--pattern"] /\
   threads (snd r) = []) /\
  (In (args_pattern raw) pattern_choices ->
   In (mode raw) mode_choices ->
   In (args_intensity raw) [0.1; 1.0; 10.0]%float ->
   main raw fuel e initial_state
     = launch (apply_mode raw) fuel e initial_state /\
   args_intensity (apply_mode raw) = args_intensity raw).
Proof.
  split; [|split].
  - intros Hp Hm Hi r. subst r.
    rewrite main_rejects_intensity; auto.
    simpl in Hi. destruct Hi as [<-|[<-|[]]]; reflexivity.
  - intros Hs r. subst r.
    rewrite main_rejects_pattern by (rewrite Hs; reflexivity).
    repeat split.
  - intros Hp Hm Hi. split.
    + apply main_accepts_intensity; auto.
      simpl in Hi. destruct Hi as [<-|[<-|[<-|[]]]]; reflexivity.
    + unfold apply_mode.
      destruct (String.eqb (mode raw) "chaotic"
                && String.eqb (args_pattern raw) "browsing")%bool;
        reflexivity.
Qed.

Definition sample_args (pat : string) (i : float) : args :=
  {| dns_noise := true; http_flood := false; tcp_noise := false;
     udp_noise := true; args_pattern := pat; args_intensity := i;
     args_tor_mode := true; verbose := false; mode := "standard" |}.

Definition quiet_env : env :=
  {| rnd := fun _ => 0.25%float; pick := fun _ => 0; net := fun _ => true;
     cleared := fun _ => false; now := fun _ => "2024-01-01 00:00:00";
     is_private := fun _ => false; sigint := fun _ => false;
     resolv_conf := true |}.

Lemma C7_configuration_rejects_and_accepts_witness :
  exit_status (fst (main (sample_args "browsing" 0.09%float) 3 quiet_env
                      initial_state)) = Some 1%Z /\
  exit_status (fst (main (sample_args "stealth" 1.0%float) 3 quiet_env
                      initial_state)) = Some 2%Z /\
  main (sample_args "browsing" 10.0%float) 3 quiet_env initial_state
    = launch (sample_args "browsing" 10.0%float) 3 quiet_env initial_state.
Proof.
  split; [|split].
  - apply (proj1 (C7_configuration_rejects_and_accepts
                    (sample_args "browsing" 0.09%float) 3 quiet_env));
      simpl; tauto.
  - apply (proj1 (proj2 (C7_configuration_rejects_and_accepts
                           (sample_args "stealth" 1.0%float) 3 quiet_env)));
      reflexivity.
  - apply (proj2 (proj2 (C7_configuration_rejects_and_accepts
                           (sample_args "browsing" 10.0%float) 3 quiet_env)));
      simpl; tauto.
Defined.

(** ** Starting with nothing enabled *)

Definition no_generator (a : args) : bool :=
  negb (dns_noise a || http_flood a || tcp_noise a || udp_noise a).

(** The events of [show_banner]. *)
Definition banner_events (a : args) : list event :=
  [ PrintBanner;
    Log INFO (msg_starting (args_pattern a) (args_intensity a));
    Log INFO (msg_active_modules
                (flag_text (dns_noise a) "DNS " ++
                 flag_text (http_flood a) "HTTP " ++
                 flag_text (tcp_noise a) "TCP " ++
                 flag_text (udp_noise a) "UDP ")%string) ]
  ++ (if args_tor_mode a then [Log INFO msg_tor_mode] else []).

(** What [start] does when no generator flag is set: the banner, the
    statistics thread if asked for, the warning, and nothing else. *)
Lemma start_nothing_enabled a fuel e s :
  no_generator a = true ->
  start a fuel e s =
    (Ret tt,
     set_trace
       (trace s ++ banner_events a
          ++ (if verbose a then [ThreadStart print_stats_task] else [])
          ++ [Log WARNING msg_no_generators])
       (set_threads
          (threads s ++ (if verbose a then [print_stats_task] else []))
          (set_config (args_intensity a) (args_pattern a) (args_tor_mode a) s))).
Proof.
  unfold no_generator. intros H.
  destruct a as [d h t u pat i tor v md]; simpl in H.
  destruct d, h, t, u; try discriminate.
  destruct s.
  cbv [start prepare banner_events spawn_generator show_banner spawn
       flag_text enabled dns_noise http_flood tcp_noise udp_noise verbose
       args_pattern args_intensity args_tor_mode negb orb]; run.
  destruct tor, v; run; repeat rewrite <- app_assoc; simpl;
    try rewrite app_nil_r; reflexivity.
Qed.

(** C9 as the code has it.  If no protocol generator is enabled, [start]
    returns normally right after logging the "no noise generators"
    warning: no generator task is spawned and the main thread never
    sleeps; the only task that can have been spawned is the statistics
    reporter, exactly when [verbose] is set. *)
Theorem C9_nothing_enabled_returns_after_warning
    (a : args) (fuel : nat) (e : env) (s : state) :
  no_generator a = true ->
  exists evs,
    fst (start a fuel e s) = Ret tt /\
    trace (snd (start a fuel e s))
      = trace s ++ evs ++ [Log WARNING msg_no_generators] /\
    existsb is_generator_start evs = false /\
    existsb is_sleep evs = false /\
    existsb is_thread_start evs = verbose a /\
    threads (snd (start a fuel e s))
      = threads s ++ (if verbose a then [print_stats_task] else []).
Proof.
  intros H. rewrite (start_nothing_enabled a fuel e s H).
  exists (banner_events a
            ++ (if verbose a then [ThreadStart print_stats_task] else [])).
  simpl. rewrite <- app_assoc.
  repeat split; unfold banner_events;
    destruct (args_tor_mode a), (verbose a); reflexivity.
Qed.

Definition idle_args (v : bool) : args :=
  {| dns_noise := false; http_flood := false; tcp_noise := false;
     udp_noise := false; args_pattern := "browsing";
     args_intensity := 1.0%float; args_tor_mode := false; verbose := v;
     mode := "standard" |}.

Lemma C9_nothing_enabled_returns_after_warning_witness :
  no_generator (idle_args false) = true /\
  exists evs,
    fst (start (idle_args false) 0 quiet_env initial_state) = Ret tt /\
    trace (snd (start (idle_args false) 0 quiet_env initial_state))
      = trace initial_state ++ evs ++ [Log WARNING msg_no_generators] /\
    existsb is_generator_start evs = false /\
    existsb is_sleep evs = false /\
    existsb is_thread_start evs = verbose (idle_args false) /\
    threads (snd (start (idle_args false) 0 quiet_env initial_state))
      = threads initial_state
        ++ (if verbose (idle_args false) then [print_stats_task] else []).
Proof.
  split; [reflexivity|].
  exact (C9_nothing_enabled_returns_after_warning
           (idle_args false) 0 quiet_env initial_state eq_refl).
Defined.

(** With [--verbose] and no generator flag, [start] has spawned a task
    (the statistics reporter) by the time it returns. *)
Lemma C9_verbose_spawns_reporter :
  no_generator (idle_args true) = true /\
  fst (start (idle_args true) 0 quiet_env initial_state) = Ret tt /\
  threads (snd (start (idle_args true) 0 quiet_env initial_state))
    = [print_stats_task] /\
  filter is_thread_start
    (trace (snd (start (idle_args true) 0 quiet_env initial_state)))
    = [ThreadStart print_stats_task].
Proof. repeat split. Qed.

(** ** Shutdown *)

Lemma set_trace_same s : set_trace (trace s) s = s.
Proof. destruct s; reflexivity. Qed.

Definition joins (ts : list task) : list event :=
  map (fun t => ThreadJoin t 1.0%float) ts.

Lemma join_all_spec ts e s :
  join_all ts e s = (Ret tt, set_trace (trace s ++ joins ts) s).
Proof.
  revert s. induction ts as [|t rest IH]; intros s; simpl.
  - rewrite app_nil_r, set_trace_same. reflexivity.
  - unfold bind, emit, modify. rewrite IH. simpl.
    rewrite <- app_assoc. reflexivity.
Qed.

(** [stop] clears the flag, then joins every started thread in order with
    a one-second timeout. *)
Lemma stop_spec e s :
  stop e s =
    (Ret tt,
     set_trace (trace s ++ [Log INFO msg_stopping] ++ joins (threads s)
                  ++ [Log INFO msg_stopped])
       (set_running false s)).
Proof.
  unfold stop, bind, emit, modify, gets. simpl.
  rewrite join_all_spec. unfold set_trace, set_running. simpl.
  repeat rewrite <- app_assoc. reflexivity.
Qed.

(** The threads [prepare] starts, and the events it leaves. *)
Definition spawned (a : args) : list task :=
  (if dns_noise a then [generate_dns_noise_task] else [])
  ++ (if http_flood a then [generate_http_noise_task] else [])
  ++ (if tcp_noise a then [generate_tcp_noise_task] else [])
  ++ (if udp_noise a then [generate_udp_noise_task] else [])
  ++ (if verbose a then [print_stats_task] else []).

Definition spawn_events (p : protocol) (a : args) : list event :=
  if enabled p a
  then [ThreadStart (generator_task p); Log INFO (msg_generator_active p)]
  else [].

Definition prepare_events (a : args) : list event :=
  banner_events a
  ++ spawn_events Dns a ++ spawn_events Http a
  ++ spawn_events Tcp a ++ spawn_events Udp a
  ++ (if verbose a then [ThreadStart print_stats_task] else []).

Definition prepared (a : args) (s : state) : state :=
  set_trace (trace s ++ prepare_events a)
    (set_threads (threads s ++ spawned a)
       (set_config (args_intensity a) (args_pattern a) (args_tor_mode a) s)).

Lemma prepare_spec a e s : prepare a e s = (Ret tt, prepared a s).
Proof.
  destruct a as [d h t u pat i tor v md]. destruct s.
  cbv [prepare prepared prepare_events spawned spawn_events banner_events
       spawn_generator show_banner spawn flag_text enabled generator_task
       dns_noise http_flood tcp_noise udp_noise verbose args_pattern
       args_intensity args_tor_mode]; run.
  destruct d, h, t, u, tor, v; run; repeat rewrite <- app_assoc; simpl;
    try rewrite app_nil_r; reflexivity.
Qed.

Lemma start_enabled a fuel e s :
  no_generator a = false ->
  start a fuel e s
    = try_except_KeyboardInterrupt (keep_alive fuel) stop e (prepared a s).
Proof.
  unfold no_generator. intros H. unfold start, bind.
  rewrite prepare_spec, H. reflexivity.
Qed.

(** One second of the keep-alive loop without a signal. *)
Lemma time_sleep_main_quiet e s :
  sigint e (tick s) = false ->
  time_sleep_main 1.0%float e s
    = (Ret tt,
       set_tick (S (tick s)) (set_trace (trace s ++ [Sleep 1.0%float]) s)).
Proof.
  intros H. destruct s; simpl in H.
  cbv [time_sleep_main time_sleep orb is_nan negb]; run. simpl.
  rewrite H. reflexivity.
Qed.

(** A SIGINT during the sleep, with [signal_handler] installed. *)
Lemma time_sleep_main_sigint e s :
  sigint e (tick s) = true ->
  handler_installed s = true ->
  time_sleep_main 1.0%float e s
    = (Raise (SystemExit 0),
       set_trace (trace s ++ [Sleep 1.0%float; Log INFO msg_interrupt])
         (set_running false (set_tick (S (tick s)) s))).
Proof.
  intros H Hh. destruct s; simpl in H, Hh.
  cbv [time_sleep_main time_sleep deliver_sigint signal_handler]; run. simpl.
  rewrite H, Hh. run. rewrite <- app_assoc. reflexivity.
Qed.

(** The events of the keep-alive loop up to and including a SIGINT that
    arrives during its [k]-th sleep (counting from 0). *)
Definition sigint_events (k : nat) : list event :=
  repeat (Sleep 1.0%float) (S k) ++ [Log INFO msg_interrupt].

Lemma keep_alive_unfold_any fuel e s :
  keep_alive (S fuel) e s =
    if running s
    then match time_sleep_main 1.0%float e s with
         | (Ret _, s1) => keep_alive fuel e s1
         | (Raise x, s1) => (Raise x, s1)
         | (OutOfFuel, s1) => (OutOfFuel, s1)
         end
    else (Ret tt, s).
Proof.
  cbn [keep_alive]. rewrite (bind_Ret _ _ e s (running s) s eq_refl).
  destruct (running s); reflexivity.
Qed.

Lemma keep_alive_unfold fuel e s :
  running s = true ->
  keep_alive (S fuel) e s =
    match time_sleep_main 1.0%float e s with
    | (Ret _, s1) => keep_alive fuel e s1
    | (Raise x, s1) => (Raise x, s1)
    | (OutOfFuel, s1) => (OutOfFuel, s1)
    end.
Proof. intros Hr. rewrite keep_alive_unfold_any, Hr. reflexivity. Qed.

Lemma keep_alive_sigint k :
  forall fuel e s,
    running s = true ->
    handler_installed s = true ->
    (forall j, j < k -> sigint e (tick s + j) = false) ->
    sigint e (tick s + k) = true ->
    k < fuel ->
    keep_alive fuel e s
      = (Raise (SystemExit 0),
         set_trace (trace s ++ sigint_events k)
           (set_running false (set_tick (S (tick s + k)) s))).
Proof.
  induction k as [|k IH]; intros fuel e s Hr Hh Hq Hs Hf;
    (destruct fuel as [|fuel]; [lia|]);
    rewrite (keep_alive_unfold fuel e s Hr).
  - rewrite Nat.add_0_r in *. rewrite time_sleep_main_sigint by assumption.
    reflexivity.
  - rewrite time_sleep_main_quiet
      by (rewrite <- (Nat.add_0_r (tick s)); apply Hq; lia).
    rewrite IH; try assumption; try lia.
    + destruct s; run. unfold sigint_events.
      cbn [repeat app]. rewrite <- app_assoc. cbn [app].
      replace (S tick0 + k) with (tick0 + S k) by lia. reflexivity.
    + intros j Hj. destruct s; simpl in *.
      replace (S (tick0 + j)) with (tick0 + S j) by lia. apply Hq. lia.
    + destruct s; simpl in *.
      replace (S (tick0 + k)) with (tick0 + S k) by lia. exact Hs.
Qed.

Lemma no_join_in_prepare a : existsb is_thread_join (prepare_events a) = false.
Proof.
  destruct a as [d h t u pat i tor v md].
  unfold prepare_events, banner_events, spawn_events; simpl.
  destruct d, h, t, u, tor, v; reflexivity.
Qed.

Lemma no_join_in_sigint_events k :
  existsb is_thread_join (sigint_events k) = false.
Proof.
  unfold sigint_events. rewrite existsb_app. simpl. rewrite orb_false_r.
  induction k; simpl in *; auto.
Qed.

Lemma generator_spawned a :
  no_generator a = false -> existsb is_generator (spawned a) = true.
Proof.
  unfold no_generator. destruct a as [d h t u pat i tor v md].
  unfold spawned; simpl. destruct d, h, t, u, v; try discriminate; reflexivity.
Qed.

(** C8, what the code does.  With [signal_handler] installed (as [main]
    installs it) and at least one generator enabled, a SIGINT that
    arrives during the [k]-th sleep of the keep-alive loop ends [start]
    with [SystemExit(0)]: the run flag is cleared and the interrupt is
    logged, but [stop] is not called and no thread is joined, although
    threads were started.  The [except KeyboardInterrupt] clause around
    the loop, which does call [stop], is not reached. *)
Theorem C8_sigint_exits_without_joining
    (a : args) (k fuel : nat) (e : env) (s : state) :
  no_generator a = false ->
  running s = true ->
  handler_installed s = true ->
  (forall j, j < k -> sigint e (tick s + j) = false) ->
  sigint e (tick s + k) = true ->
  k < fuel ->
  let r := start a fuel e s in
  fst r = Raise (SystemExit 0) /\
  running (snd r) = false /\
  trace (snd r) = trace s ++ prepare_events a ++ sigint_events k /\
  existsb is_thread_join (prepare_events a ++ sigint_events k) = false /\
  threads (snd r) = threads s ++ spawned a /\
  existsb is_generator (spawned a) = true.
Proof.
  intros Hg Hr Hh Hq Hs Hf r. subst r.
  rewrite (start_enabled a fuel e s Hg).
  unfold try_except_KeyboardInterrupt.
  rewrite (keep_alive_sigint k fuel e (prepared a s)); try assumption.
  cbn [fst snd]. repeat split.
  - destruct s; cbv [prepared]; run. rewrite <- app_assoc. reflexivity.
  - rewrite existsb_app, no_join_in_prepare, no_join_in_sigint_events.
    reflexivity.
  - apply generator_spawned. exact Hg.
Qed.

Definition sigint_env (k : nat) : env :=
  {| rnd := fun _ => 0.25%float; pick := fun _ => 0; net := fun _ => true;
     cleared := fun _ => false; now := fun _ => "2024-01-01 00:00:00";
     is_private := fun _ => false; sigint := fun t => Nat.eqb t k;
     resolv_conf := true |}.

Lemma C8_sigint_exits_without_joining_witness :
  let r := start (sample_args "browsing" 1.0%float) 5 (sigint_env 2)
             (set_handler true initial_state) in
  fst r = Raise (SystemExit 0) /\
  running (snd r) = false /\
  filter is_thread_join (trace (snd r)) = [] /\
  threads (snd r) = [generate_dns_noise_task; generate_udp_noise_task].
Proof.
  assert (Hq : forall j, j < 2 -> Nat.eqb (0 + j) 2 = false).
  { intros j Hj. apply Nat.eqb_neq. lia. }
  assert (Hf : 2 < 5) by lia.
  destruct (C8_sigint_exits_without_joining
              (sample_args "browsing" 1.0%float) 2 5 (sigint_env 2)
              (set_handler true initial_state)
              eq_refl eq_refl eq_refl Hq eq_refl Hf)
    as (H1 & H2 & H3 & _ & H5 & _).
  cbv zeta. rewrite H1, H2, H3, H5. repeat split.
Defined.

(** The sibling path: without the handler, SIGINT raises
    [KeyboardInterrupt] in the sleep, the [except] clause of [start]
    calls [stop], and every started thread is joined with timeout 1.0. *)
Lemma start_keyboard_interrupt_joins a fuel e s :
  no_generator a = false ->
  running s = true ->
  handler_installed s = false ->
  sigint e (tick s) = true ->
  let r := start a (S fuel) e s in
  fst r = Ret tt /\
  running (snd r) = false /\
  trace (snd r)
    = trace s ++ prepare_events a
      ++ [Sleep 1.0%float; Log INFO msg_stopping]
      ++ joins (threads s ++ spawned a) ++ [Log INFO msg_stopped].
Proof.
  intros Hg Hr Hh Hs r. subst r.
  rewrite (start_enabled a (S fuel) e s Hg).
  unfold try_except_KeyboardInterrupt.
  rewrite (keep_alive_unfold fuel e (prepared a s)) by exact Hr.
  assert (Hk : time_sleep_main 1.0%float e (prepared a s)
               = (Raise KeyboardInterrupt,
                  set_tick (S (tick s))
                    (set_trace (trace (prepared a s) ++ [Sleep 1.0%float])
                       (prepared a s)))).
  { destruct s; simpl in Hs, Hh.
    cbv [time_sleep_main time_sleep deliver_sigint prepared]; run. simpl.
    rewrite Hs, Hh. reflexivity. }
  rewrite Hk, stop_spec. cbn [fst snd]. repeat split.
  destruct s; cbv [prepared]; run. repeat rewrite <- app_assoc. reflexivity.
Qed.

(** The whole program on the failing input of C8: [--dns-noise
    --udp-noise --tor-mode], a SIGINT during the third second. *)
Example main_sigint_run :
  let r := main (sample_args "browsing" 1.0%float) 5 (sigint_env 2)
             initial_state in
  exit_status (fst r) = Some 0%Z /\
  running (snd r) = false /\
  threads (snd r) = [generate_dns_noise_task; generate_udp_noise_task] /\
  filter is_thread_join (trace (snd r)) = [] /\
  trace (snd r) =
    [ SignalInstall; PrintBanner;
      Log INFO (msg_starting "browsing" 1.0%float);
      Log INFO (msg_active_modules "DNS UDP ");
      Log INFO msg_tor_mode;
      ThreadStart generate_dns_noise_task;
      Log INFO (msg_generator_active Dns);
      ThreadStart generate_udp_noise_task;
      Log INFO (msg_generator_active Udp);
      Sleep 1.0%float; Sleep 1.0%float; Sleep 1.0%float;
      Log INFO msg_interrupt ].
Proof. vm_compute. repeat split. Qed.

(** ** The gate *)

Lemma random_random_spec e s :
  random_random e s = (Ret (rnd e (tick s)), set_tick (S (tick s)) s).
Proof. reflexivity. Qed.

Lemma traffic_pattern_known e s pf :
  dict_get TRAFFIC_PATTERNS (pattern s) = Some pf ->
  traffic_pattern e s = (Ret pf, s).
Proof.
  intros H. unfold traffic_pattern, bind, gets. rewrite H. reflexivity.
Qed.

Lemma traffic_pattern_unknown e s :
  dict_get TRAFFIC_PATTERNS (pattern s) = None ->
  traffic_pattern e s = (Raise (KeyError (pattern s)), s).
Proof.
  intros H. unfold traffic_pattern, bind, gets. rewrite H. reflexivity.
Qed.

(** The state after the gate's draw, and after its back-off sleep. *)
Definition drawn (s : state) : state := set_tick (S (tick s)) s.

Definition backed_off (s : state) : state :=
  set_trace (trace s ++ [Sleep 0.1%float]) (drawn s).

Lemma gated_spec p rest e s pf :
  dict_get TRAFFIC_PATTERNS (pattern s) = Some pf ->
  gated p rest e s =
    if (ratio p pf * intensity s <? rnd e (tick s))%float
    then (Ret tt, backed_off s)
    else rest e (drawn s).
Proof.
  intros H. unfold gated.
  rewrite (bind_Ret _ _ e s _ _ (random_random_spec e s)).
  rewrite (bind_Ret _ _ e _ _ _ (traffic_pattern_known e (drawn s) pf H)).
  rewrite (bind_Ret _ _ e (drawn s) (intensity s) (drawn s) eq_refl).
  destruct (ratio p pf * intensity s <? rnd e (tick s))%float; reflexivity.
Qed.

Definition gate_env (u : float) : env :=
  {| rnd := fun _ => u; pick := fun _ => 0; net := fun _ => true;
     cleared := fun _ => false; now := fun _ => "2024-01-01 00:00:00";
     is_private := fun _ => false; sigint := fun _ => false;
     resolv_conf := true |}.


Lemma nan_is_nan x : Prim2SF x = S754_nan -> is_nan x = true.
Proof.
  intros H. unfold is_nan. rewrite eqb_spec, H. reflexivity.
Qed.

Lemma is_nan_Prim2SF x : is_nan x = true -> Prim2SF x = S754_nan.
Proof.
  intros H. destruct (Prim2SF x) eqn:E; try reflexivity;
    rewrite F64.is_nan_false in H
      by (unfold F64.is_num; rewrite E; discriminate);
    discriminate.
Qed.

Lemma is_nan_false_is_num x : is_nan x = false -> F64.is_num x.
Proof.
  intros H E. rewrite (nan_is_nan x E) in H. discriminate.
Qed.

Lemma ltb_nan_l x y : is_nan x = true -> (x <? y)%float = false.
Proof.
  intros H. rewrite ltb_spec, (is_nan_Prim2SF x H). reflexivity.
Qed.

Lemma ltb_nan_r x y : is_nan y = true -> (x <? y)%float = false.
Proof.
  intros H. rewrite ltb_spec, (is_nan_Prim2SF y H). unfold SFltb.
  destruct (Prim2SF x); reflexivity.
Qed.

Lemma leb_nan_r x y : is_nan y = true -> (x <=? y)%float = false.
Proof.
  intros H. rewrite leb_spec, (is_nan_Prim2SF y H). unfold SFleb.
  destruct (Prim2SF x); reflexivity.
Qed.

Lemma mul_nan_r x i : is_nan i = true -> is_nan (x * i)%float = true.
Proof.
  intros H. apply nan_is_nan. rewrite mul_spec, (is_nan_Prim2SF i H).
  unfold SF64mul. destruct (Prim2SF x); reflexivity.
Qed.





(** ** Pacing *)

(** The delay of line 214-217, from the draw [u] behind [random.uniform]. *)
Definition drawn_delay (pf : profile) (i u : float) : float :=
  ((interval_min pf + (interval_max pf - interval_min pf) * u) / i)%float.

Lemma pace_spec e s pf :
  dict_get TRAFFIC_PATTERNS (pattern s) = Some pf ->
  (intensity s =? 0)%float = false ->
  pace e s =
    time_sleep (tor_floor (tor_mode s)
                  (drawn_delay pf (intensity s) (rnd e (tick s))))
      e (drawn s).
Proof.
  intros Hpf Hi. unfold pace, bind.
  rewrite (traffic_pattern_known e s pf Hpf).
  rewrite (traffic_pattern_known e s pf Hpf).
  unfold random_uniform, bind. rewrite random_random_spec.
  unfold ret, gets, truediv. simpl. rewrite Hi. reflexivity.
Qed.



Lemma tor_floor_disabled d : tor_floor false d = d.
Proof. reflexivity. Qed.

(** Is [d] a duration [time.sleep] sleeps: not negative, and
    less than 2^63 nanoseconds? *)
Definition sleepable (d : float) : bool :=
  ((0 <=? d)%float && (nanoseconds d <? PyTime_limit)%float)%bool.

Lemma time_sleep_ok d e s :
  (0 <=? d)%float = true ->
  (nanoseconds d <? PyTime_limit)%float = true ->
  time_sleep d e s = (Ret tt, set_trace (trace s ++ [Sleep d]) s).
Proof.
  intros H Hlt. unfold time_sleep.
  rewrite (F64.is_nan_false d) by (apply (F64.leb_is_num _ _ H)).
  assert (Hlo : (- PyTime_limit <=? nanoseconds d)%float = true).
  { apply (F64.neg_leb_nonneg _ _ 4503599627370496%positive 11%Z);
      [reflexivity|].
    apply (F64.mul_nonneg d _ 8388608000000000%positive (-23)%Z);
      [exact H | reflexivity]. }
  rewrite Hlo, (F64.ltb_leb _ _ Hlt), (F64.leb_not_ltb _ _ H),
    (F64.ltb_not_leb _ _ Hlt).
  reflexivity.
Qed.

(** A duration that is not sleepable is refused: nothing is slept. *)
Lemma time_sleep_refused d e s :
  sleepable d = false ->
  exists x, time_sleep d e s = (Raise x, s) /\ is_Exception x = true.
Proof.
  intros H. unfold time_sleep.
  destruct (is_nan d) eqn:Hn; [exists ValueError; split; reflexivity|].
  destruct (- PyTime_limit <=? nanoseconds d)%float;
    [|exists OverflowError; split; reflexivity].
  destruct (nanoseconds d <=? PyTime_limit)%float eqn:Hr;
    [|exists OverflowError; split; reflexivity].
  cbn [andb negb].
  destruct (d <? 0)%float eqn:Hd; [exists ValueError; split; reflexivity|].
  destruct (PyTime_limit <=? nanoseconds d)%float eqn:Hl;
    [exists ValueError; split; reflexivity|].
  exfalso. unfold sleepable in H.
  assert (H0 : F64.is_num 0%float) by (vm_compute; discriminate).
  rewrite (F64.ltb_negb_leb 0%float d H0 (is_nan_false_is_num d Hn)) in Hd.
  destruct (0 <=? d)%float; [|discriminate]. cbn [andb] in H.
  destruct (F64.leb_is_num _ _ Hr) as [Hns Hlim].
  rewrite (F64.ltb_negb_leb _ _ Hlim Hns), Hl in H. discriminate.
Qed.

(** [time.sleep] either refuses its argument, and nothing is slept, or
    sleeps it, once. *)
Lemma time_sleep_cases d e s :
  (exists x, time_sleep d e s = (Raise x, s) /\ is_Exception x = true) \/
  (sleepable d = true /\
   time_sleep d e s = (Ret tt, set_trace (trace s ++ [Sleep d]) s)).
Proof.
  destruct (sleepable d) eqn:H.
  - right. split; [reflexivity|]. unfold sleepable in H.
    apply andb_prop in H. destruct H as [H0 H1].
    exact (time_sleep_ok d e s H0 H1).
  - left. exact (time_sleep_refused d e s H).
Qed.


Definition tor_state (pat : string) (i : float) (tor : bool) : state :=
  set_config i pat tor initial_state.


(** ** What a computation can touch *)

(** [s'] differs from [s] at most in its tick and its trace. *)
Definition same_core (s s' : state) : Prop :=
  running s' = running s /\ threads s' = threads s /\
  intensity s' = intensity s /\ pattern s' = pattern s /\
  tor_mode s' = tor_mode s /\ self_stats s' = self_stats s /\
  handler_installed s' = handler_installed s.

(** [s'] extends the trace of [s] by events that all satisfy [P]. *)
Definition adds (P : event -> bool) (s s' : state) : Prop :=
  exists evs, trace s' = trace s ++ evs /\ forallb P evs = true.

(** [m] only asks the environment and emits events satisfying [P]. *)
Definition io (P : event -> bool) {A} (m : M A) : Prop :=
  forall e s, same_core s (snd (m e s)) /\ adds P s (snd (m e s)).

(** Whatever [m] raises is an [Exception]. *)
Definition safe {A} (m : M A) : Prop :=
  forall e s x, fst (m e s) = Raise x -> is_Exception x = true.

Lemma same_core_refl s : same_core s s.
Proof. repeat split. Qed.

Lemma same_core_trans s1 s2 s3 :
  same_core s1 s2 -> same_core s2 s3 -> same_core s1 s3.
Proof.
  unfold same_core. intros (A1 & A2 & A3 & A4 & A5 & A6 & A7)
    (B1 & B2 & B3 & B4 & B5 & B6 & B7).
  repeat split; congruence.
Qed.

Lemma adds_refl P s : adds P s s.
Proof. exists []. split; [now rewrite app_nil_r | reflexivity]. Qed.

Lemma adds_trans P s1 s2 s3 : adds P s1 s2 -> adds P s2 s3 -> adds P s1 s3.
Proof.
  intros (l1 & E1 & F1) (l2 & E2 & F2). exists (l1 ++ l2). split.
  - rewrite E2, E1, app_assoc. reflexivity.
  - rewrite forallb_app, F1, F2. reflexivity.
Qed.

Section Combinators.
Context {A B : Type}.
Variable P : event -> bool.

Lemma io_ret (a : A) : io P (ret a).
Proof. intros e s. split; [apply same_core_refl | apply adds_refl]. Qed.

Lemma io_raise x : io P (@raise A x).
Proof. intros e s. split; [apply same_core_refl | apply adds_refl]. Qed.

Lemma io_out_of_fuel : io P (@out_of_fuel A).
Proof. intros e s. split; [apply same_core_refl | apply adds_refl]. Qed.

Lemma io_ask (f : env -> A) : io P (ask f).
Proof. intros e s. split; [apply same_core_refl | apply adds_refl]. Qed.

Lemma io_gets (f : state -> A) : io P (gets f).
Proof. intros e s. split; [apply same_core_refl | apply adds_refl]. Qed.

Lemma io_bind (m : M A) (k : A -> M B) :
  io P m -> (forall a, io P (k a)) -> io P (bind m k).
Proof.
  intros Hm Hk e s. unfold bind. destruct (Hm e s) as [C D].
  destruct (m e s) as [[a|x|] s1]; simpl in *; auto.
  destruct (Hk a e s1) as [C' D'].
  split; [eapply same_core_trans | eapply adds_trans]; eassumption.
Qed.

Lemma safe_ret (a : A) : safe (ret a).
Proof. intros e s x H. discriminate H. Qed.

Lemma safe_raise x : is_Exception x = true -> safe (@raise A x).
Proof. intros Hx e s y H. simpl in H. injection H as <-. exact Hx. Qed.

Lemma safe_out_of_fuel : safe (@out_of_fuel A).
Proof. intros e s x H. discriminate H. Qed.

Lemma safe_ask (f : env -> A) : safe (ask f).
Proof. intros e s x H. discriminate H. Qed.

Lemma safe_gets (f : state -> A) : safe (gets f).
Proof. intros e s x H. discriminate H. Qed.

Lemma safe_bind (m : M A) (k : A -> M B) :
  safe m -> (forall a, safe (k a)) -> safe (bind m k).
Proof.
  intros Hm Hk e s x. unfold bind. specialize (Hm e s).
  destruct (m e s) as [[a|y|] s1]; simpl in *.
  - apply Hk.
  - intros H. injection H as <-. apply Hm. reflexivity.
  - discriminate.
Qed.
End Combinators.

Lemma io_next_tick P : io P next_tick.
Proof.
  intros e s. split; [repeat split|]. exists []. simpl.
  rewrite app_nil_r. split; reflexivity.
Qed.

Lemma io_emit (P : event -> bool) ev : P ev = true -> io P (emit ev).
Proof.
  intros H e s. split; [repeat split|]. exists [ev]. simpl.
  rewrite H. split; reflexivity.
Qed.

Lemma safe_next_tick : safe next_tick.
Proof. intros e s x H. discriminate H. Qed.

Lemma safe_modify f : safe (modify f).
Proof. intros e s x H. discriminate H. Qed.

Lemma safe_emit ev : safe (emit ev).
Proof. apply safe_modify. Qed.

Create HintDb py discriminated.
#[export] Hint Resolve io_ret io_raise io_out_of_fuel io_ask io_gets
  io_next_tick safe_ret safe_out_of_fuel safe_ask safe_gets safe_next_tick
  safe_modify safe_emit : py.

(** Walk down a computation built from the combinators. *)
Ltac walk :=
  repeat first
    [ progress intros
    | solve [auto with py]
    | apply io_bind | apply safe_bind
    | apply io_emit; reflexivity
    | apply safe_raise; reflexivity
    | match goal with
      | |- io _ (if ?c then _ else _) => destruct c
      | |- safe (if ?c then _ else _) => destruct c
      | |- io _ (match ?c with _ => _ end) => destruct c
      | |- safe (match ?c with _ => _ end) => destruct c
      end ].

Lemma io_random_random P : io P random_random.
Proof. unfold random_random. walk. Qed.

Lemma safe_random_random : safe random_random.
Proof. unfold random_random. walk. Qed.

Lemma io_randbelow P n : io P (randbelow n).
Proof. unfold randbelow. walk. Qed.

Lemma safe_randbelow n : safe (randbelow n).
Proof. unfold randbelow. walk. Qed.

#[export] Hint Resolve io_random_random safe_random_random io_randbelow
  safe_randbelow : py.

Lemma io_random_choice P {A} (seq : list A) : io P (random_choice seq).
Proof. unfold random_choice. walk. Qed.

Lemma safe_random_choice {A} (seq : list A) : safe (random_choice seq).
Proof. unfold random_choice. walk. Qed.

Lemma io_random_randint P a b : io P (random_randint a b).
Proof. unfold random_randint. walk. Qed.

Lemma safe_random_randint a b : safe (random_randint a b).
Proof. unfold random_randint. walk. Qed.

Lemma io_replicateM P {A} n (m : M A) : io P m -> io P (replicateM n m).
Proof. intros Hm. induction n; simpl; walk. Qed.

Lemma safe_replicateM {A} n (m : M A) : safe m -> safe (replicateM n m).
Proof. intros Hm. induction n; simpl; walk. Qed.

Lemma io_net_call (P : event -> bool) ev :
  (forall ok, P (ev ok) = true) -> io P (net_call ev).
Proof. intros H. unfold net_call. walk. apply io_emit. apply H. Qed.

Lemma safe_net_call ev : safe (net_call ev).
Proof. unfold net_call. walk. Qed.

#[export] Hint Resolve io_random_choice safe_random_choice io_random_randint
  safe_random_randint io_replicateM safe_replicateM safe_net_call : py.

(** ** The acts *)

Definition not_sleep (ev : event) : bool := negb (is_sleep ev).

Lemma io_get_random_ip P fuel : io P (get_random_ip fuel).
Proof. induction fuel; simpl; walk. Qed.

Lemma safe_get_random_ip fuel : safe (get_random_ip fuel).
Proof. induction fuel; simpl; walk. Qed.

#[export] Hint Resolve io_get_random_ip safe_get_random_ip : py.

Ltac walk_net :=
  repeat first
    [ progress walk
    | apply io_replicateM | apply safe_replicateM
    | apply io_net_call; intros; reflexivity ].

(** An act only draws, asks and talks to the network: it leaves the
    counters, the configuration and the run flag alone, and it never
    sleeps. *)
Lemma io_act p fuel : io not_sleep (act p fuel).
Proof.
  destruct p; simpl;
    unfold dns_act, http_act, tcp_act, udp_act, datetime_now, bytes_format,
      random_getrandbits8;
    walk_net.
Qed.

(** An act raises nothing but [Exception]s. *)
Lemma safe_act p fuel : safe (act p fuel).
Proof.
  destruct p; simpl;
    unfold dns_act, http_act, tcp_act, udp_act, datetime_now, bytes_format,
      random_getrandbits8;
    walk_net.
Qed.

Lemma safe_traffic_pattern : safe traffic_pattern.
Proof. unfold traffic_pattern. walk. Qed.

Lemma safe_time_sleep d : safe (time_sleep d).
Proof. unfold time_sleep. walk. Qed.

Lemma safe_truediv x y : safe (truediv x y).
Proof. unfold truediv. walk. Qed.

#[export] Hint Resolve safe_traffic_pattern safe_time_sleep safe_truediv
  safe_act : py.

Lemma safe_pace : safe pace.
Proof. unfold pace, random_uniform. walk. Qed.

#[export] Hint Resolve safe_pace : py.

Lemma safe_iteration p fuel : safe (iteration p fuel).
Proof. unfold iteration, gated, record. walk. Qed.

(** ** The generator loop *)

Definition returned {A} (o : outcome A) : bool :=
  match o with Ret _ => true | _ => false end.

Definition escaped {A} (o : outcome A) : bool :=
  match o with Raise _ => true | _ => false end.

(** The state a generator thread is in after looking at [running]. *)
Definition looked (e : env) (s : state) : state :=
  if cleared e (tick s) then set_running false (drawn s) else drawn s.

Lemma read_running_spec e s :
  read_running e s = (Ret (running (looked e s)), looked e s).
Proof.
  unfold read_running, looked.
  rewrite (bind_Ret _ _ e s (tick s) (drawn s) eq_refl).
  rewrite (bind_Ret _ _ e (drawn s) (cleared e (tick s)) (drawn s) eq_refl).
  destruct (cleared e (tick s)); reflexivity.
Qed.

Lemma looked_core e s :
  threads (looked e s) = threads s /\ intensity (looked e s) = intensity s /\
  pattern (looked e s) = pattern s /\ tor_mode (looked e s) = tor_mode s /\
  self_stats (looked e s) = self_stats s /\ tick (looked e s) = S (tick s) /\
  trace (looked e s) = trace s.
Proof. unfold looked. destruct (cleared e (tick s)); repeat split. Qed.

Lemma looked_quiet e s : cleared e (tick s) = false -> looked e s = drawn s.
Proof. intros H. unfold looked. rewrite H. reflexivity. Qed.

Lemma try_except_pass_state body e s :
  snd (try_except_pass body e s) = snd (body e s).
Proof.
  unfold try_except_pass. destruct (body e s) as [[a|x|] s1]; simpl; auto.
  destruct (is_Exception x); reflexivity.
Qed.

(** A caught exception ends the [try] statement normally, in the state
    the raise left. *)
Lemma try_except_pass_caught body e s x s1 :
  body e s = (Raise x, s1) -> is_Exception x = true ->
  try_except_pass body e s = (Ret tt, s1).
Proof. intros H Hx. unfold try_except_pass. rewrite H, Hx. reflexivity. Qed.

Lemma try_except_pass_no_escape body :
  safe body -> forall e s, escaped (fst (try_except_pass body e s)) = false.
Proof.
  intros Hs e s. unfold try_except_pass. specialize (Hs e s).
  destruct (body e s) as [[a|x|] s1]; simpl in *; auto.
  rewrite (Hs x eq_refl). reflexivity.
Qed.

(** One turn of the loop. *)
Lemma generator_loop_unfold body n e s :
  generator_loop body (S n) e s =
    if running (looked e s)
    then match try_except_pass body e (looked e s) with
         | (Ret _, s1) => generator_loop body n e s1
         | (Raise x, s1) => (Raise x, s1)
         | (OutOfFuel, s1) => (OutOfFuel, s1)
         end
    else (Ret tt, looked e s).
Proof.
  cbn [generator_loop].
  rewrite (bind_Ret _ _ e s _ _ (read_running_spec e s)).
  destruct (running (looked e s)); reflexivity.
Qed.

(** One turn of the loop whose body ended normally or was caught. *)
Lemma generator_loop_step body n e s s1 :
  running (looked e s) = true ->
  try_except_pass body e (looked e s) = (Ret tt, s1) ->
  generator_loop body (S n) e s = generator_loop body n e s1.
Proof.
  intros Hr Hb. rewrite generator_loop_unfold, Hr, Hb. reflexivity.
Qed.

Lemma generator_loop_stop body n e s :
  running (looked e s) = false ->
  generator_loop body (S n) e s = (Ret tt, looked e s).
Proof. intros Hr. rewrite generator_loop_unfold, Hr. reflexivity. Qed.

(** No exception leaves the loop, and the loop returns only with the run
    flag cleared. *)
Lemma generator_loop_no_escape body :
  safe body ->
  forall n e s,
    escaped (fst (generator_loop body n e s)) = false /\
    (returned (fst (generator_loop body n e s)) = true ->
     running (snd (generator_loop body n e s)) = false).
Proof.
  intros Hs. induction n as [|n IH]; intros e s.
  - split; [reflexivity | discriminate].
  - rewrite generator_loop_unfold.
    destruct (running (looked e s)) eqn:Hr.
    + pose proof (try_except_pass_no_escape body Hs e (looked e s)) as Ht.
      destruct (try_except_pass body e (looked e s)) as [[[]|x|] s1];
        simpl in Ht; try discriminate.
      * apply IH.
      * split; [reflexivity | discriminate].
    + split; [reflexivity | intros _; exact Hr].
Qed.

(** A property of the state that the flag test and the body preserve
    holds after any number of turns. *)
Lemma generator_loop_invariant (I : state -> Prop) body e :
  (forall s, I s -> I (looked e s)) ->
  (forall s, I s -> I (snd (body e s))) ->
  forall n s, I s -> I (snd (generator_loop body n e s)).
Proof.
  intros Hl Hb. induction n as [|n IH]; intros s Hi; [exact Hi|].
  rewrite generator_loop_unfold.
  destruct (running (looked e s)); [|apply Hl; exact Hi].
  pose proof (try_except_pass_state body e (looked e s)) as Ht.
  assert (Hi1 : I (snd (body e (looked e s)))) by (apply Hb, Hl, Hi).
  destruct (try_except_pass body e (looked e s)) as [[[]|x|] s1];
    simpl in Ht; subst s1; auto.
Qed.

(** With the flag never cleared, a loop whose body always ends normally
    or is caught, and leaves the flag alone, is still going after any
    number of turns. *)
Lemma generator_loop_runs_on (I : state -> Prop) body e :
  (forall t, cleared e t = false) ->
  (forall s, I s ->
     exists s1, try_except_pass body e (drawn s) = (Ret tt, s1) /\
                I s1 /\ running s1 = running s) ->
  forall n s, I s -> running s = true ->
              fst (generator_loop body n e s) = OutOfFuel.
Proof.
  intros Hc Hb. induction n as [|n IH]; intros s Hi Hrun; [reflexivity|].
  rewrite generator_loop_unfold, (looked_quiet e s (Hc _)).
  change (running (drawn s)) with (running s). rewrite Hrun.
  destruct (Hb s Hi) as (s1 & H1 & H2 & H3). rewrite H1.
  apply IH; [exact H2 | congruence].
Qed.

(** ** A transport that always fails *)

Definition all_fail (e : env) : Prop := forall t, net e t = false.

(** [m] does not come to a normal end in [e]. *)
Definition fails_in (e : env) {A} (m : M A) : Prop :=
  forall s, returned (fst (m e s)) = false.

Lemma fails_net_call e ev : all_fail e -> fails_in e (net_call ev).
Proof.
  intros H s. unfold net_call, bind, next_tick, ask, emit, modify, ret, raise.
  simpl. rewrite H. reflexivity.
Qed.

Lemma fails_bind_l e {A B} (m : M A) (k : A -> M B) :
  fails_in e m -> fails_in e (bind m k).
Proof.
  intros H s. unfold bind. specialize (H s).
  destruct (m e s) as [[a|x|] s1]; simpl in *; auto. discriminate.
Qed.

Lemma fails_bind_r e {A B} (m : M A) (k : A -> M B) :
  (forall a, fails_in e (k a)) -> fails_in e (bind m k).
Proof.
  intros H s. unfold bind.
  destruct (m e s) as [[a|x|] s1]; simpl in *; auto. apply H.
Qed.

Lemma act_all_fail p fuel e : all_fail e -> fails_in e (act p fuel).
Proof.
  intros H. pose proof (fails_net_call e) as Hn.
  destruct p; simpl; unfold dns_act, http_act, tcp_act, udp_act.
  - do 3 (apply fails_bind_r; intros). auto.
  - do 3 (apply fails_bind_r; intros).
    destruct (0.8 <? a1)%float; [do 2 (apply fails_bind_r; intros)|]; auto.
  - do 2 (apply fails_bind_r; intros). apply fails_bind_l. auto.
  - apply fails_bind_l. auto.
Qed.

Lemma gated_unknown p rest e s :
  dict_get TRAFFIC_PATTERNS (pattern s) = None ->
  gated p rest e s = (Raise (KeyError (pattern s)), drawn s).
Proof.
  intros H. unfold gated.
  rewrite (bind_Ret _ _ e s _ _ (random_random_spec e s)).
  rewrite (bind_Raise _ _ e _ _ _ (traffic_pattern_unknown e (drawn s) H)).
  reflexivity.
Qed.

(** An iteration whose act does not come to a normal end leaves the
    counters as they were. *)
Lemma iteration_act_fails_stats p fuel e s :
  fails_in e (act p fuel) ->
  self_stats (snd (iteration p fuel e s)) = self_stats s.
Proof.
  intros Hf. unfold iteration.
  destruct (dict_get TRAFFIC_PATTERNS (pattern s)) as [pf|] eqn:Hpf.
  - rewrite (gated_spec p _ e s pf Hpf).
    destruct (ratio p pf * intensity s <? rnd e (tick s))%float;
      [reflexivity|].
    unfold bind at 1. specialize (Hf (drawn s)).
    destruct (io_act p fuel e (drawn s)) as [(_ & _ & _ & _ & _ & Hst & _) _].
    destruct (act p fuel e (drawn s)) as [[a|x|] s1]; simpl in *;
      try discriminate; exact Hst.
  - rewrite (gated_unknown p _ e s Hpf). reflexivity.
Qed.

(** An iteration whose gate opens and whose act raises: the [try]
    statement ends normally in the state the act left, which has the
    counters of the start and no further event. *)
Lemma iteration_act_raises p fuel e s pf x s1 :
  dict_get TRAFFIC_PATTERNS (pattern s) = Some pf ->
  (ratio p pf * intensity s <? rnd e (tick s))%float = false ->
  act p fuel e (drawn s) = (Raise x, s1) ->
  try_except_pass (iteration p fuel) e s = (Ret tt, s1) /\
  same_core s s1 /\ adds not_sleep s s1.
Proof.
  intros Hpf Hg Ha.
  assert (Hx : is_Exception x = true).
  { apply (safe_act p fuel e (drawn s)). rewrite Ha. reflexivity. }
  split.
  - apply try_except_pass_caught with (x := x); [|exact Hx].
    unfold iteration. rewrite (gated_spec p _ e s pf Hpf), Hg.
    unfold bind at 1. rewrite Ha. reflexivity.
  - pose proof (io_act p fuel e (drawn s)) as [Hc Hd]. rewrite Ha in *.
    simpl in *. split; [exact Hc | exact Hd].
Qed.

(** C3.  For every generator: (1) no exception leaves the loop, which
    returns only once the run flag is cleared; (2) when the gate opens
    and the act fails, whatever the exception, the [try] statement ends
    normally in the state the act left, the counters are those of the
    start of the iteration, and the loop goes on with its next turn;
    (3) in an environment where the act never comes to a normal end,
    the counters after any number of turns are those of the start, so a
    counter that starts at 0 stays at 0; (4) an environment where every
    network call fails is such an environment, for every protocol. *)
Theorem C3_act_failures_are_swallowed
    (p : protocol) (fuel : nat) (e : env) (s : state) :
  (forall n,
     escaped (fst (generator_loop (iteration p fuel) n e s)) = false /\
     (returned (fst (generator_loop (iteration p fuel) n e s)) = true ->
      running (snd (generator_loop (iteration p fuel) n e s)) = false)) /\
  (forall pf x s1 n,
     running (looked e s) = true ->
     dict_get TRAFFIC_PATTERNS (pattern s) = Some pf ->
     (ratio p pf * intensity s <? rnd e (S (tick s)))%float = false ->
     act p fuel e (drawn (looked e s)) = (Raise x, s1) ->
     try_except_pass (iteration p fuel) e (looked e s) = (Ret tt, s1) /\
     self_stats s1 = self_stats s /\
     generator_loop (iteration p fuel) (S n) e s
       = generator_loop (iteration p fuel) n e s1) /\
  (fails_in e (act p fuel) ->
   forall n,
     self_stats (snd (generator_loop (iteration p fuel) n e s))
       = self_stats s) /\
  (all_fail e -> fails_in e (act p fuel)).
Proof.
  split; [|split; [|split]].
  - intros n. apply generator_loop_no_escape. apply safe_iteration.
  - intros pf x s1 n Hr Hpf Hg Ha.
    assert (Hp : pattern (looked e s) = pattern s)
      by (unfold looked; destruct (cleared e (tick s)); reflexivity).
    assert (Hi : intensity (looked e s) = intensity s)
      by (unfold looked; destruct (cleared e (tick s)); reflexivity).
    assert (Ht : tick (looked e s) = S (tick s))
      by (unfold looked; destruct (cleared e (tick s)); reflexivity).
    assert (Hs : self_stats (looked e s) = self_stats s)
      by (unfold looked; destruct (cleared e (tick s)); reflexivity).
    destruct (iteration_act_raises p fuel e (looked e s) pf x s1)
      as (H1 & (_ & _ & _ & _ & _ & H2 & _) & _); try assumption.
    + rewrite Hp. exact Hpf.
    + rewrite Hi, Ht. exact Hg.
    + repeat split; [exact H1 | congruence |].
      apply generator_loop_step; assumption.
  - intros Hfail n.
    apply (generator_loop_invariant
             (fun s' => self_stats s' = self_stats s)); auto.
    + intros s0 H0. rewrite <- H0. unfold looked.
      destruct (cleared e (tick s0)); reflexivity.
    + intros s0 H0. rewrite <- H0.
      apply iteration_act_fails_stats. exact Hfail.
  - apply act_all_fail.
Qed.

Definition failing_env : env :=
  {| rnd := fun _ => 0.25%float; pick := fun _ => 0; net := fun _ => false;
     cleared := fun _ => false; now := fun _ => "2024-01-01 00:00:00";
     is_private := fun _ => false; sigint := fun _ => false;
     resolv_conf := true |}.

(** The scenario of the specification: pattern browsing, intensity 1.0,
    Tor mode, DNS and UDP, every network call failing. *)
Lemma C3_act_failures_are_swallowed_witness :
  self_stats (snd (generate Dns 5 failing_env
                     (tor_state "browsing" 1.0%float true))) = zero_stats /\
  self_stats (snd (generate Udp 5 failing_env
                     (tor_state "browsing" 1.0%float true))) = zero_stats /\
  escaped (fst (generate Dns 5 failing_env
                  (tor_state "browsing" 1.0%float true))) = false /\
  escaped (fst (generate Udp 5 failing_env
                  (tor_state "browsing" 1.0%float true))) = false.
Proof.
  assert (Hall : all_fail failing_env) by (intros t; reflexivity).
  unfold generate. split; [|split; [|split]].
  - destruct (C3_act_failures_are_swallowed Dns 5 failing_env
                (tor_state "browsing" 1.0%float true))
      as (_ & _ & H3 & H4).
    exact (H3 (H4 Hall) 5).
  - destruct (C3_act_failures_are_swallowed Udp 5 failing_env
                (tor_state "browsing" 1.0%float true))
      as (_ & _ & H3 & H4).
    exact (H3 (H4 Hall) 5).
  - exact (proj1 (proj1 (C3_act_failures_are_swallowed Dns 5 failing_env
             (tor_state "browsing" 1.0%float true)) 5)).
  - exact (proj1 (proj1 (C3_act_failures_are_swallowed Udp 5 failing_env
             (tor_state "browsing" 1.0%float true)) 5)).
Defined.

(** ** After a failed act *)

Lemma forallb_not_sleep evs :
  forallb not_sleep evs = true -> existsb is_sleep evs = false.
Proof.
  induction evs as [|ev rest IH]; simpl; [reflexivity|].
  unfold not_sleep at 1. destruct (is_sleep ev); simpl; [discriminate|exact IH].
Qed.

(** Two turns of the DNS generator under the chaotic pattern with a
    resolver that fails: the second query follows the failed first one
    with no sleep in between. *)
Lemma C4_failed_query_retried_without_delay :
  trace (snd (generate Dns 2 failing_env
                (tor_state "chaotic" 1.0%float false)))
    = [ Resolve "google.com" "A" false; Resolve "google.com" "A" false ] /\
  existsb is_sleep
    (trace (snd (generate Dns 2 failing_env
                   (tor_state "chaotic" 1.0%float false)))) = false.
Proof. split; reflexivity. Qed.

(** The state after [k] turns whose gates all skip: each turn looks at
    the flag, draws, and sleeps the back-off. *)
Fixpoint skipped (k : nat) (e : env) (s : state) : state :=
  match k with
  | O => s
  | S k' => skipped k' e (backed_off (looked e s))
  end.

(** Do the next [k] turns from [s] find the flag set and the gate of
    protocol [p] closed? *)
Fixpoint gates_skip (p : protocol) (pf : profile) (k : nat) (e : env)
    (s : state) : bool :=
  match k with
  | O => true
  | S k' =>
      (running (looked e s)
       && (ratio p pf * intensity s <? rnd e (S (tick s)))%float
       && gates_skip p pf k' e (backed_off (looked e s)))%bool
  end.

(** The gate of the turn that starts in [s]. *)
Lemma turn_gate p fuel e s pf :
  dict_get TRAFFIC_PATTERNS (pattern s) = Some pf ->
  iteration p fuel e (looked e s) =
    if (ratio p pf * intensity s <? rnd e (S (tick s)))%float
    then (Ret tt, backed_off (looked e s))
    else (act p fuel ;; record p ;; pace) e (drawn (looked e s)).
Proof.
  intros Hpf.
  destruct (looked_core e s) as (_ & Hi & Hp & _ & _ & Ht & _).
  unfold iteration. rewrite (gated_spec p _ e (looked e s) pf);
    [|rewrite Hp; exact Hpf].
  rewrite Hi, Ht. reflexivity.
Qed.

(** [k] turns whose gates skip add [k] back-off sleeps and nothing
    else. *)
Lemma skipped_spec p fuel pf e n k :
  forall s,
    dict_get TRAFFIC_PATTERNS (pattern s) = Some pf ->
    gates_skip p pf k e s = true ->
    trace (skipped k e s) = trace s ++ repeat (Sleep 0.1%float) k /\
    pattern (skipped k e s) = pattern s /\
    intensity (skipped k e s) = intensity s /\
    generator_loop (iteration p fuel) (k + n) e s
      = generator_loop (iteration p fuel) n e (skipped k e s).
Proof.
  induction k as [|k IH]; intros s Hpf Hk.
  - cbn [skipped repeat Nat.add]. rewrite app_nil_r. repeat split.
  - cbn [gates_skip] in Hk. apply andb_prop in Hk. destruct Hk as [Hk Hk'].
    apply andb_prop in Hk. destruct Hk as [Hr Hg].
    destruct (looked_core e s) as (_ & Hi & Hp & _ & _ & _ & Htr).
    assert (Hpf' : dict_get TRAFFIC_PATTERNS
                     (pattern (backed_off (looked e s))) = Some pf).
    { change (pattern (backed_off (looked e s))) with (pattern (looked e s)).
      rewrite Hp. exact Hpf. }
    destruct (IH (backed_off (looked e s)) Hpf' Hk') as (I1 & I2 & I3 & I4).
    cbn [skipped repeat Nat.add]. split; [|split; [|split]].
    + rewrite I1. change (trace (backed_off (looked e s)))
        with (trace (looked e s) ++ [Sleep 0.1%float]).
      rewrite Htr, <- app_assoc. reflexivity.
    + rewrite I2. exact Hp.
    + rewrite I3. exact Hi.
    + rewrite <- I4. apply generator_loop_step; [exact Hr|].
      unfold try_except_pass.
      rewrite (turn_gate p fuel e s pf Hpf), Hg. reflexivity.
Qed.

(** C4 as the code has it.  When the gate opens and the act fails, the
    rest of the body, pacing sleep included, is skipped: the events of
    the iteration are those of the act, none of them a sleep, and the
    loop goes straight on to its next turn (flag test and gate) from the
    state the act left.  From there, after any number [k] of turns whose
    gates skip, each adding the 0.1 second back-off and nothing else,
    the first turn whose gate opens starts its act at once: between the
    failed act and the next attempt the trace holds [k] back-off sleeps
    and no other event, none at all when the very next gate opens. *)
Theorem C4_failed_act_skips_pacing
    (p : protocol) (fuel n : nat) (e : env) (s s1 : state)
    (pf : profile) (x : exn) :
  running (looked e s) = true ->
  dict_get TRAFFIC_PATTERNS (pattern s) = Some pf ->
  (ratio p pf * intensity s <? rnd e (S (tick s)))%float = false ->
  act p fuel e (drawn (looked e s)) = (Raise x, s1) ->
  exists evs,
    trace s1 = trace s ++ evs /\
    existsb is_sleep evs = false /\
    generator_loop (iteration p fuel) (S n) e s
      = generator_loop (iteration p fuel) n e s1 /\
    forall k,
      gates_skip p pf k e s1 = true ->
      let s2 := skipped k e s1 in
      trace s2 = trace s ++ evs ++ repeat (Sleep 0.1%float) k /\
      generator_loop (iteration p fuel) (k + n) e s1
        = generator_loop (iteration p fuel) n e s2 /\
      ((ratio p pf * intensity s <? rnd e (S (tick s2)))%float = false ->
       iteration p fuel e (looked e s2)
         = (act p fuel ;; record p ;; pace) e (drawn (looked e s2)) /\
       trace (drawn (looked e s2))
         = trace s ++ evs ++ repeat (Sleep 0.1%float) k).
Proof.
  intros Hr Hpf Hg Ha.
  destruct (looked_core e s) as (_ & Hi & Hp & _ & _ & Ht & Htr).
  destruct (iteration_act_raises p fuel e (looked e s) pf x s1)
    as (H1 & Hc & (evs & H2 & H3)); try assumption.
  - rewrite Hp. exact Hpf.
  - rewrite Hi, Ht. exact Hg.
  - destruct Hc as (_ & _ & Hi1 & Hp1 & _).
    exists evs. rewrite <- Htr. split; [exact H2|].
    split; [apply forallb_not_sleep; exact H3|].
    split; [apply generator_loop_step; assumption|].
    intros k Hk s2.
    assert (Hpf1 : dict_get TRAFFIC_PATTERNS (pattern s1) = Some pf)
      by (rewrite Hp1, Hp; exact Hpf).
    destruct (skipped_spec p fuel pf e n k s1 Hpf1 Hk) as (K1 & K2 & K3 & K4).
    fold s2 in K1, K2, K3, K4.
    assert (Htr2 : trace s2
                   = trace (looked e s) ++ evs ++ repeat (Sleep 0.1%float) k)
      by (rewrite K1, H2, <- app_assoc; reflexivity).
    split; [exact Htr2|]. split; [exact K4|].
    intros Hg2.
    assert (Hpf2 : dict_get TRAFFIC_PATTERNS (pattern s2) = Some pf)
      by (rewrite K2; exact Hpf1).
    split.
    + rewrite (turn_gate p fuel e s2 pf Hpf2), K3, Hi1, Hi, Hg2. reflexivity.
    + destruct (looked_core e s2) as (_ & _ & _ & _ & _ & _ & Htr').
      change (trace (drawn (looked e s2))) with (trace (looked e s2)).
      rewrite Htr'. exact Htr2.
Qed.

(** The DNS generator under the browsing pattern with a resolver that
    fails and draws 0.1, 0.9, ..., 0.9, 0.1 at the gates: the first
    query fails, the next turn backs off, the third turn queries again. *)
Definition retry_env : env :=
  {| rnd := fun t => if (Nat.eqb t 1 || Nat.eqb t 10)%bool
                     then 0.1%float else 0.9%float;
     pick := fun _ => 0; net := fun _ => false;
     cleared := fun _ => false; now := fun _ => "2024-01-01 00:00:00";
     is_private := fun _ => false; sigint := fun _ => false;
     resolv_conf := true |}.

Lemma C4_failed_act_skips_pacing_witness :
  let s := tor_state "browsing" 1.0%float false in
  let s1 := set_tick 7 (set_trace [Resolve "www.google.com" "A" false] s) in
  let s2 := set_tick 9
              (set_trace [Resolve "www.google.com" "A" false;
                          Sleep 0.1%float] s) in
  generator_loop (iteration Dns 0) 3 retry_env s
    = generator_loop (iteration Dns 0) 2 retry_env s1 /\
  generator_loop (iteration Dns 0) 3 retry_env s1
    = generator_loop (iteration Dns 0) 2 retry_env s2 /\
  iteration Dns 0 retry_env (looked retry_env s2)
    = (act Dns 0 ;; record Dns ;; pace) retry_env
        (drawn (looked retry_env s2)) /\
  trace (drawn (looked retry_env s2))
    = [Resolve "www.google.com" "A" false; Sleep 0.1%float].
Proof.
  intros s s1 s2.
  destruct (C4_failed_act_skips_pacing Dns 0 2 retry_env s s1
              {| http_ratio := 0.6; dns_ratio := 0.3; tcp_ratio := 0.1;
                 udp_ratio := 0.05; interval_min := 1.0;
                 interval_max := 8.0 |}%float
              OSError eq_refl eq_refl eq_refl eq_refl)
    as (evs & Htr & _ & Hstep & Hnext).
  assert (Hevs : evs = [Resolve "www.google.com" "A" false])
    by (exact (eq_sym Htr)).
  destruct (Hnext 1 eq_refl) as (_ & Hskip & Hact).
  destruct (Hact eq_refl) as (Hrun & Htrace).
  split; [exact Hstep|]. split; [exact Hskip|]. split; [exact Hrun|].
  rewrite Hevs in Htrace. exact Htrace.
Defined.

(** ** The TCP act on an HTTP port *)

Lemma emit_spec ev e s :
  emit ev e s = (Ret tt, set_trace (trace s ++ [ev]) s).
Proof. reflexivity. Qed.

(** What [random.choice] returns when the raw draw is [n]. *)
Definition chosen {A} (seq : list A) (d : A) (n : nat) : A :=
  nth (Nat.modulo n (List.length seq)) seq d.

Lemma choice_targets e s :
  random_choice targets e s
    = (Ret (chosen targets "mozilla.org" (pick e (tick s))), drawn s).
Proof. reflexivity. Qed.

Lemma choice_tcp_ports e s :
  random_choice tcp_ports e s
    = (Ret (chosen tcp_ports 80%Z (pick e (tick s))), drawn s).
Proof. reflexivity. Qed.

Lemma choice_http_requests e s :
  exists request, random_choice http_requests e s = (Ret request, drawn s).
Proof. eexists. reflexivity. Qed.

Lemma net_call_ok ev e s :
  net e (tick s) = true ->
  net_call ev e s = (Ret tt, set_trace (trace s ++ [ev true]) (drawn s)).
Proof.
  intros H. unfold net_call.
  rewrite (bind_Ret _ _ e s (tick s) (drawn s) eq_refl).
  rewrite (bind_Ret _ _ e (drawn s) (net e (tick s)) (drawn s) eq_refl).
  rewrite H. reflexivity.
Qed.

Lemma net_call_fail ev e s :
  net e (tick s) = false ->
  net_call ev e s
    = (Raise OSError, set_trace (trace s ++ [ev false]) (drawn s)).
Proof.
  intros H. unfold net_call.
  rewrite (bind_Ret _ _ e s (tick s) (drawn s) eq_refl).
  rewrite (bind_Ret _ _ e (drawn s) (net e (tick s)) (drawn s) eq_refl).
  rewrite H. reflexivity.
Qed.

(** The state of the TCP act once the connection is open: three draws or
    calls for target, port and socket, one for the connect. *)
Definition connected (target : string) (port : Z) (s : state) : state :=
  set_tick (4 + tick s)
    (set_trace (trace s ++ [ Socket SOCK_STREAM true; SetTimeout 5;
                             Connect target port true ]) s).

Lemma tcp_act_connect e s :
  net e (2 + tick s) = true ->
  net e (3 + tick s) = true ->
  let target := chosen targets "mozilla.org" (pick e (tick s)) in
  let port := chosen tcp_ports 80%Z (pick e (1 + tick s)) in
  tcp_act e s =
    ((if is_http_port port
      then request <- random_choice http_requests ;;
           data <- bytes_format request target ;;
           net_call (Send data) ;;
           c <- random_random ;;
           (if (0.7 <? c)%float then net_call (Recv 4096) else ret tt)
      else ret tt) ;;
     emit Close) e (connected target port s).
Proof.
  intros Hs Hc target port. unfold tcp_act.
  rewrite (bind_Ret _ _ e s _ _ (choice_targets e s)).
  rewrite (bind_Ret _ _ e _ _ _ (choice_tcp_ports e (drawn s))).
  erewrite bind_Ret by (apply net_call_ok; exact Hs).
  erewrite bind_Ret by apply emit_spec.
  erewrite bind_Ret by (apply net_call_ok; exact Hc).
  f_equal. subst target port. destruct s; cbv [connected drawn]; run.
  repeat rewrite <- app_assoc. reflexivity.
Qed.

(** On an HTTP port the act ends in [AttributeError] right after the
    connect: one more draw (the template), no send, no close. *)
Lemma tcp_act_http_port e s :
  net e (2 + tick s) = true ->
  net e (3 + tick s) = true ->
  let target := chosen targets "mozilla.org" (pick e (tick s)) in
  let port := chosen tcp_ports 80%Z (pick e (1 + tick s)) in
  is_http_port port = true ->
  tcp_act e s
    = (Raise (AttributeError "bytes" "format"),
       set_tick (5 + tick s) (connected target port s)).
Proof.
  intros Hs Hc target port Hp.
  rewrite (tcp_act_connect e s Hs Hc). fold target. fold port.
  rewrite Hp.
  apply bind_Raise.
  destruct (choice_http_requests e (connected target port s)) as [rq Hrq].
  rewrite (bind_Ret _ _ e _ _ _ Hrq).
  destruct s; reflexivity.
Qed.

(** On any other port nothing is sent and the socket is closed. *)
Lemma tcp_act_other_port e s :
  net e (2 + tick s) = true ->
  net e (3 + tick s) = true ->
  let target := chosen targets "mozilla.org" (pick e (tick s)) in
  let port := chosen tcp_ports 80%Z (pick e (1 + tick s)) in
  is_http_port port = false ->
  tcp_act e s
    = (Ret tt,
       set_trace (trace s ++ [ Socket SOCK_STREAM true; SetTimeout 5;
                               Connect target port true; Close ])
         (set_tick (4 + tick s) s)).
Proof.
  intros Hs Hc target port Hp.
  rewrite (tcp_act_connect e s Hs Hc). fold target. fold port.
  rewrite Hp.
  rewrite (bind_Ret _ _ e _ tt _ eq_refl).
  destruct s; cbv [connected]; run. rewrite <- app_assoc. reflexivity.
Qed.

Lemma iteration_tcp_http_port fuel e s pf :
  dict_get TRAFFIC_PATTERNS (pattern s) = Some pf ->
  (tcp_ratio pf * intensity s <? rnd e (tick s))%float = false ->
  net e (3 + tick s) = true ->
  net e (4 + tick s) = true ->
  let target := chosen targets "mozilla.org" (pick e (1 + tick s)) in
  let port := chosen tcp_ports 80%Z (pick e (2 + tick s)) in
  is_http_port port = true ->
  iteration Tcp fuel e s
    = (Raise (AttributeError "bytes" "format"),
       set_tick (6 + tick s)
         (set_trace (trace s ++ [ Socket SOCK_STREAM true; SetTimeout 5;
                                  Connect target port true ]) s)).
Proof.
  intros Hpf Hg Hs Hc target port Hp. unfold iteration.
  rewrite (gated_spec Tcp _ e s pf Hpf). cbn [ratio]. rewrite Hg.
  apply bind_Raise. cbn [act].
  rewrite (tcp_act_http_port e (drawn s) Hs Hc Hp).
  subst target port. destruct s; reflexivity.
Qed.

(** C5, what the code does.  In an iteration of the TCP generator whose
    gate opens, whose socket and connection succeed and whose port is
    one of 80, 443, 8080, 8443: line 327 raises [AttributeError]
    ([bytes] has no [format]), which the loop's handler swallows.  The
    events of the iteration are the socket creation, the timeout and the
    connect: nothing is sent, nothing is read, the socket is not closed,
    and the tcp counter is not incremented. *)
Theorem C5_tcp_http_port_sends_nothing
    (fuel : nat) (e : env) (s : state) (pf : profile) :
  dict_get TRAFFIC_PATTERNS (pattern s) = Some pf ->
  (tcp_ratio pf * intensity s <? rnd e (tick s))%float = false ->
  net e (3 + tick s) = true ->
  net e (4 + tick s) = true ->
  let target := chosen targets "mozilla.org" (pick e (1 + tick s)) in
  let port := chosen tcp_ports 80%Z (pick e (2 + tick s)) in
  is_http_port port = true ->
  let r := try_except_pass (iteration Tcp fuel) e s in
  fst (iteration Tcp fuel e s) = Raise (AttributeError "bytes" "format") /\
  fst r = Ret tt /\
  trace (snd r)
    = trace s ++ [ Socket SOCK_STREAM true; SetTimeout 5;
                   Connect target port true ] /\
  self_stats (snd r) = self_stats s.
Proof.
  intros Hpf Hg Hs Hc target port Hp r. subst r.
  pose proof (iteration_tcp_http_port fuel e s pf Hpf Hg Hs Hc Hp) as Hi.
  fold target in Hi. fold port in Hi.
  rewrite (try_except_pass_caught _ e s _ _ Hi eq_refl), Hi.
  repeat split.
Qed.

Definition tcp_env : env :=
  {| rnd := fun _ => 0.05%float; pick := fun _ => 0; net := fun _ => true;
     cleared := fun _ => false; now := fun _ => "2024-01-01 00:00:00";
     is_private := fun _ => false; sigint := fun _ => false;
     resolv_conf := true |}.

Lemma C5_tcp_http_port_sends_nothing_witness :
  let r := try_except_pass (iteration Tcp 0) tcp_env initial_state in
  fst (iteration Tcp 0 tcp_env initial_state)
    = Raise (AttributeError "bytes" "format") /\
  fst r = Ret tt /\
  trace (snd r) = [ Socket SOCK_STREAM true; SetTimeout 5;
                    Connect "mozilla.org" 80 true ] /\
  self_stats (snd r) = zero_stats.
Proof.
  exact (C5_tcp_http_port_sends_nothing 0 tcp_env initial_state
           {| http_ratio := 0.6; dns_ratio := 0.3; tcp_ratio := 0.1;
              udp_ratio := 0.05; interval_min := 1.0;
              interval_max := 8.0 |}%float
           eq_refl eq_refl eq_refl eq_refl eq_refl).
Defined.

(** The same iteration on a port outside the HTTP family (here 22):
    connect, close, count, pace. *)
Example tcp_other_port_run :
  let e := {| rnd := fun _ => 0.05%float;
              pick := fun t => 4 * Nat.b2n (Nat.eqb t 2);
              net := fun _ => true; cleared := fun _ => false;
              now := fun _ => "2024-01-01 00:00:00";
              is_private := fun _ => false; sigint := fun _ => false;
              resolv_conf := true |} in
  let r := try_except_pass (iteration Tcp 0) e initial_state in
  fst r = Ret tt /\
  trace (snd r) = [ Socket SOCK_STREAM true; SetTimeout 5;
                    Connect "mozilla.org" 22 true; Close;
                    Sleep 1.35%float ] /\
  self_stats (snd r) = {| dns := 0; http := 0; tcp := 1; udp := 0 |}.
Proof. vm_compute. repeat split. Qed.

(** ** An unknown pattern name *)

(** The main-thread sleep keeps the pattern, and raises nothing but what
    a SIGINT brings. *)
Lemma time_sleep_main_outcome e s :
  pattern (snd (time_sleep_main 1.0%float e s)) = pattern s /\
  forall x, fst (time_sleep_main 1.0%float e s) = Raise x ->
            x = SystemExit 0 \/ x = KeyboardInterrupt.
Proof.
  destruct s.
  cbv [time_sleep_main time_sleep deliver_sigint signal_handler]; run. simpl.
  destruct (sigint e tick0); run; [destruct handler_installed0; run|];
    (split; [reflexivity|]); intros x H; try discriminate;
    injection H as <-; auto.
Qed.

Lemma keep_alive_outcome fuel :
  forall e s,
    pattern (snd (keep_alive fuel e s)) = pattern s /\
    forall x, fst (keep_alive fuel e s) = Raise x ->
              x = SystemExit 0 \/ x = KeyboardInterrupt.
Proof.
  induction fuel as [|fuel IH]; intros e s.
  - split; [reflexivity | discriminate].
  - rewrite keep_alive_unfold_any. destruct (running s).
    + destruct (time_sleep_main_outcome e s) as [Hp Hx].
      destruct (time_sleep_main 1.0%float e s) as [[[]|x|] s1];
        simpl in Hp, Hx.
      * destruct (IH e s1) as [Hp1 Hx1]. split; [congruence | exact Hx1].
      * split; [exact Hp|]. intros y H. injection H as <-. apply Hx.
        reflexivity.
      * split; [exact Hp | discriminate].
    + split; [reflexivity | discriminate].
Qed.

(** [start] stores whatever pattern name it is given and looks nothing
    up: the only exception that can leave it is the [SystemExit(0)] of
    the interrupt handler. *)
Lemma start_outcome a fuel e s :
  pattern (snd (start a fuel e s)) = args_pattern a /\
  forall x, fst (start a fuel e s) = Raise x -> x = SystemExit 0.
Proof.
  destruct (no_generator a) eqn:Hg.
  - rewrite (start_nothing_enabled a fuel e s Hg).
    split; [reflexivity | discriminate].
  - rewrite (start_enabled a fuel e s Hg).
    unfold try_except_KeyboardInterrupt.
    destruct (keep_alive_outcome fuel e (prepared a s)) as [Hp Hx].
    destruct (keep_alive fuel e (prepared a s)) as [[[]|x|] s1];
      simpl in Hp, Hx.
    + split; [exact Hp | discriminate].
    + destruct (Hx x eq_refl) as [->| ->].
      * split; [exact Hp|]. intros y H. injection H as <-. reflexivity.
      * rewrite stop_spec. split; [exact Hp | discriminate].
    + split; [exact Hp | discriminate].
Qed.

(** With an unknown pattern, the [try] statement of every generator ends
    normally after the gate's draw, with nothing else changed. *)
Lemma iteration_unknown p fuel e s :
  dict_get TRAFFIC_PATTERNS (pattern s) = None ->
  try_except_pass (iteration p fuel) e s = (Ret tt, drawn s).
Proof.
  intros H. apply try_except_pass_caught with (x := KeyError (pattern s));
    [|reflexivity].
  unfold iteration. apply gated_unknown. exact H.
Qed.

(** C10.  When the engine's pattern name is not in the table: (1) no
    exception leaves any generator, and after any number of turns the
    trace and the counters are those of the start: no traffic, no
    sleep, no increment; (2) as long as the run flag is not cleared the
    generator is still looping after any number of turns; (3) the engine
    raises no configuration error: [start] stores the name it is given
    without looking it up, and the only exception that can leave it is
    the handler's [SystemExit(0)]; the name is only checked by the
    command-line parser. *)
Theorem C10_unknown_pattern_spins_silently
    (p : protocol) (fuel : nat) (e : env) (s : state) :
  dict_get TRAFFIC_PATTERNS (pattern s) = None ->
  (forall n,
     escaped (fst (generator_loop (iteration p fuel) n e s)) = false /\
     trace (snd (generator_loop (iteration p fuel) n e s)) = trace s /\
     self_stats (snd (generator_loop (iteration p fuel) n e s))
       = self_stats s) /\
  (running s = true -> (forall t, cleared e t = false) ->
   forall n, fst (generator_loop (iteration p fuel) n e s) = OutOfFuel) /\
  (forall a fuel' e' s',
     args_pattern a = pattern s ->
     pattern (snd (start a fuel' e' s')) = pattern s /\
     forall x, fst (start a fuel' e' s') = Raise x -> x = SystemExit 0).
Proof.
  intros Hnone. split; [|split].
  - intros n. split.
    + apply generator_loop_no_escape. apply safe_iteration.
    + pose proof (generator_loop_invariant
                    (fun s' => pattern s' = pattern s /\
                               trace s' = trace s /\
                               self_stats s' = self_stats s)
                    (iteration p fuel) e) as Hinv.
      apply Hinv; [| |repeat split].
      * intros s0 (H1 & H2 & H3).
        destruct (looked_core e s0) as (_ & _ & L1 & _ & L2 & _ & L3).
        repeat split; congruence.
      * intros s0 (H1 & H2 & H3).
        rewrite <- (try_except_pass_state (iteration p fuel) e s0).
        rewrite iteration_unknown by (rewrite H1; exact Hnone).
        repeat split; assumption.
  - intros Hrun Hc n.
    apply (generator_loop_runs_on (fun s' => pattern s' = pattern s));
      auto.
    intros s0 H0. exists (drawn (drawn s0)). repeat split; [|exact H0].
    apply iteration_unknown. change (pattern (drawn s0)) with (pattern s0).
    rewrite H0. exact Hnone.
  - intros a fuel' e' s' Ha.
    destruct (start_outcome a fuel' e' s') as [H1 H2].
    split; [congruence | exact H2].
Qed.

Lemma C10_unknown_pattern_spins_silently_witness :
  let s := tor_state "stealth" 1.0%float false in
  (escaped (fst (generator_loop (iteration Dns 3) 4 quiet_env s)) = false /\
   trace (snd (generator_loop (iteration Dns 3) 4 quiet_env s)) = [] /\
   self_stats (snd (generator_loop (iteration Dns 3) 4 quiet_env s))
     = zero_stats) /\
  fst (generator_loop (iteration Dns 3) 4 quiet_env s) = OutOfFuel.
Proof.
  intros s.
  destruct (C10_unknown_pattern_spins_silently Dns 3 quiet_env s eq_refl)
    as (H1 & H2 & _).
  split; [exact (H1 4)|]. apply H2; [reflexivity | intros t; reflexivity].
Defined.

(** ** The UDP address draw comes to an end *)

(** The four octets drawn from tick [t] on, and the address they spell. *)
Definition drawn_octets (e : env) (t : nat) : list string :=
  map (fun j => str_int (1 + Z.of_nat (Nat.modulo (pick e (j + t)) 254)))
      [0; 1; 2; 3].

Definition drawn_ip (e : env) (t : nat) : string :=
  String.concat "." (drawn_octets e t).

Lemma draw_octets_spec e s :
  replicateM 4 (n <- random_randint 1 254 ;; ret (str_int n)) e s
    = (Ret (drawn_octets e (tick s)), set_tick (4 + tick s) s).
Proof. destruct s; reflexivity. Qed.

Lemma get_random_ip_unfold fuel e s :
  get_random_ip (S fuel) e s =
    if is_private e (drawn_ip e (tick s))
    then get_random_ip fuel e (set_tick (4 + tick s) s)
    else (Ret (drawn_ip e (tick s)), set_tick (4 + tick s) s).
Proof.
  cbn [get_random_ip].
  rewrite (bind_Ret _ _ e s _ _ (draw_octets_spec e s)).
  erewrite bind_Ret by reflexivity.
  fold (drawn_ip e (tick s)).
  destruct (is_private e (drawn_ip e (tick s))); reflexivity.
Qed.

(** If the [k]-th address drawn is the first one that is not private,
    any fuel above [k] lets the loop return it. *)
Lemma get_random_ip_returns k :
  forall fuel e s,
    (forall j, j < k -> is_private e (drawn_ip e (4 * j + tick s)) = true) ->
    is_private e (drawn_ip e (4 * k + tick s)) = false ->
    k < fuel ->
    get_random_ip fuel e s
      = (Ret (drawn_ip e (4 * k + tick s)),
         set_tick (4 * S k + tick s) s).
Proof.
  induction k as [|k IH]; intros fuel e s Hpriv Hpub Hf;
    (destruct fuel as [|fuel]; [lia|]); rewrite get_random_ip_unfold.
  - change (4 * 0 + tick s) with (tick s) in Hpub. rewrite Hpub.
    reflexivity.
  - pose proof (Hpriv 0 (Nat.lt_0_succ k)) as H0.
    change (4 * 0 + tick s) with (tick s) in H0. rewrite H0.
    rewrite (IH fuel e (set_tick (4 + tick s) s)).
    + cbn [tick set_tick].
      replace (4 * k + (4 + tick s)) with (4 * S k + tick s) by lia.
      replace (4 * S k + (4 + tick s)) with (4 * S (S k) + tick s) by lia.
      destruct s; reflexivity.
    + intros j Hj. cbn [tick set_tick].
      replace (4 * j + (4 + tick s)) with (4 * S j + tick s) by lia.
      apply Hpriv. lia.
    + cbn [tick set_tick].
      replace (4 * k + (4 + tick s)) with (4 * S k + tick s) by lia.
      exact Hpub.
    + lia.
Qed.

(** ** Shutdown through [stop] *)

(** X1.  [ChaosecTool.stop] never raises: it clears the run flag, logs,
    joins every thread in [self.threads] in the order they were started,
    each with timeout 1.0, and logs again; it leaves threads, counters
    and configuration alone.  Called a second time it joins the same
    threads once more and ends in the same flag, threads and counters. *)
Theorem X1_stop_joins_every_thread_and_is_repeatable (e : env) (s : state) :
  let r := stop e s in
  let r2 := stop e (snd r) in
  fst r = Ret tt /\
  running (snd r) = false /\
  trace (snd r) = trace s ++ [Log INFO msg_stopping]
                    ++ map (fun t => ThreadJoin t 1.0%float) (threads s)
                    ++ [Log INFO msg_stopped] /\
  threads (snd r) = threads s /\
  self_stats (snd r) = self_stats s /\
  fst r2 = Ret tt /\
  running (snd r2) = running (snd r) /\
  threads (snd r2) = threads (snd r) /\
  self_stats (snd r2) = self_stats (snd r) /\
  filter is_thread_join (trace (snd r2))
    = filter is_thread_join (trace s)
      ++ map (fun t => ThreadJoin t 1.0%float) (threads s ++ threads s).
Proof.
  cbv zeta. rewrite !stop_spec. cbn [fst snd].
  repeat split.
  destruct s; run. unfold joins.
  assert (Hj : forall ts, filter is_thread_join
                            (map (fun t => ThreadJoin t 1.0%float) ts)
                          = map (fun t => ThreadJoin t 1.0%float) ts).
  { induction ts as [|t ts IH]; simpl; [reflexivity | now rewrite IH]. }
  rewrite !filter_app, !Hj, map_app. simpl. rewrite !app_nil_r.
  rewrite <- app_assoc. reflexivity.
Qed.

(** ** The [KeyboardInterrupt] path of [start] *)

(** A SIGINT during the sleep with Python's default handler in place. *)
Lemma time_sleep_main_default_sigint e s :
  sigint e (tick s) = true ->
  handler_installed s = false ->
  time_sleep_main 1.0%float e s
    = (Raise KeyboardInterrupt,
       set_tick (S (tick s)) (set_trace (trace s ++ [Sleep 1.0%float]) s)).
Proof.
  intros H Hh. destruct s; simpl in H, Hh.
  cbv [time_sleep_main time_sleep deliver_sigint]; run. simpl.
  rewrite H, Hh. reflexivity.
Qed.

Lemma keep_alive_default_sigint k :
  forall fuel e s,
    running s = true ->
    handler_installed s = false ->
    (forall j, j < k -> sigint e (tick s + j) = false) ->
    sigint e (tick s + k) = true ->
    k < fuel ->
    keep_alive fuel e s
      = (Raise KeyboardInterrupt,
         set_tick (S (tick s + k))
           (set_trace (trace s ++ repeat (Sleep 1.0%float) (S k)) s)).
Proof.
  induction k as [|k IH]; intros fuel e s Hr Hh Hq Hs Hf;
    (destruct fuel as [|fuel]; [lia|]);
    rewrite (keep_alive_unfold fuel e s Hr).
  - rewrite Nat.add_0_r in *.
    rewrite time_sleep_main_default_sigint by assumption. reflexivity.
  - rewrite time_sleep_main_quiet
      by (rewrite <- (Nat.add_0_r (tick s)); apply Hq; lia).
    rewrite IH; try assumption; try lia.
    + destruct s; run. cbn [repeat app]. rewrite <- app_assoc. cbn [app].
      replace (S tick0 + k) with (tick0 + S k) by lia. reflexivity.
    + intros j Hj. destruct s; simpl in *.
      replace (S (tick0 + j)) with (tick0 + S j) by lia. apply Hq. lia.
    + destruct s; simpl in *.
      replace (S (tick0 + k)) with (tick0 + S k) by lia. exact Hs.
Qed.

(** X2.  When [start] runs without [signal_handler] installed (the tool
    used as a library, not through [main]) and at least one generator is
    enabled, a SIGINT during the [k]-th sleep of the keep-alive loop
    raises [KeyboardInterrupt], the [except] clause calls [stop], and
    [start] returns normally: flag cleared, every started thread joined
    once, in start order, with timeout 1.0, after [k + 1] sleeps. *)
Theorem X2_keyboard_interrupt_runs_stop
    (a : args) (k fuel : nat) (e : env) (s : state) :
  no_generator a = false ->
  running s = true ->
  handler_installed s = false ->
  (forall j, j < k -> sigint e (tick s + j) = false) ->
  sigint e (tick s + k) = true ->
  k < fuel ->
  let r := start a fuel e s in
  fst r = Ret tt /\
  running (snd r) = false /\
  trace (snd r)
    = trace s ++ prepare_events a
      ++ repeat (Sleep 1.0%float) (S k)
      ++ [Log INFO msg_stopping]
      ++ map (fun t => ThreadJoin t 1.0%float) (threads s ++ spawned a)
      ++ [Log INFO msg_stopped].
Proof.
  intros Hg Hr Hh Hq Hs Hf r. subst r.
  rewrite (start_enabled a fuel e s Hg).
  unfold try_except_KeyboardInterrupt.
  rewrite (keep_alive_default_sigint k fuel e (prepared a s));
    try assumption.
  rewrite stop_spec. cbn [fst snd]. repeat split.
  destruct s; cbv [prepared]; run. unfold joins.
  repeat rewrite <- app_assoc. reflexivity.
Qed.

Lemma X2_keyboard_interrupt_runs_stop_witness :
  let r := start (sample_args "browsing" 1.0%float) 5 (sigint_env 1)
             initial_state in
  fst r = Ret tt /\
  running (snd r) = false /\
  filter is_thread_join (trace (snd r))
    = [ ThreadJoin generate_dns_noise_task 1.0%float;
        ThreadJoin generate_udp_noise_task 1.0%float ].
Proof.
  assert (Hq : forall j, j < 1 -> Nat.eqb (0 + j) 1 = false).
  { intros j Hj. apply Nat.eqb_neq. lia. }
  assert (Hf : 1 < 5) by lia.
  destruct (X2_keyboard_interrupt_runs_stop
              (sample_args "browsing" 1.0%float) 1 5 (sigint_env 1)
              initial_state eq_refl eq_refl eq_refl Hq eq_refl Hf)
    as (H1 & H2 & H3).
  cbv zeta. rewrite H1, H2, H3. repeat split.
Defined.

(** ** The command line and the table agree *)

Definition has_key {V} (d : list (string * V)) (key : string) : bool :=
  match dict_get d key with Some _ => true | None => false end.

Lemma choices_are_keys name :
  existsb (String.eqb name) pattern_choices = has_key TRAFFIC_PATTERNS name.
Proof.
  cbv [has_key existsb pattern_choices dict_get TRAFFIC_PATTERNS].
  rewrite (String.eqb_sym name "browsing"), (String.eqb_sym name "streaming"),
    (String.eqb_sym name "gaming"), (String.eqb_sym name "chaotic").
  destruct (String.eqb "browsing" name); [reflexivity|].
  destruct (String.eqb "streaming" name); [reflexivity|].
  destruct (String.eqb "gaming" name); [reflexivity|].
  destruct (String.eqb "chaotic" name); reflexivity.
Qed.

Lemma apply_mode_pattern a :
  args_pattern (apply_mode a) = args_pattern a \/
  args_pattern (apply_mode a) = "chaotic".
Proof.
  unfold apply_mode.
  destruct (String.eqb (mode a) "chaotic"
            && String.eqb (args_pattern a) "browsing")%bool;
    [right | left]; reflexivity.
Qed.

(** X3.  The values argparse accepts for [--pattern] are exactly the
    keys of [TRAFFIC_PATTERNS], and the legacy [--mode] mapping only ever
    replaces the pattern by "chaotic".  So whenever [parse_args] accepts
    the command line, the pattern [main] hands to the tool is found in
    the table: a generator started through [main] never meets the
    [KeyError] of an unknown pattern. *)
Theorem X3_accepted_pattern_is_in_table (raw a : args) (e : env) (s s' : state) :
  (forall name,
     existsb (String.eqb name) pattern_choices
       = has_key TRAFFIC_PATTERNS name) /\
  (parse_args raw e s = (Ret a, s') ->
   has_key TRAFFIC_PATTERNS (args_pattern (apply_mode a)) = true).
Proof.
  split; [exact choices_are_keys|].
  unfold parse_args.
  destruct (existsb (String.eqb (args_pattern raw)) pattern_choices) eqn:Hp;
    cbn [negb]; [|intros H; discriminate H].
  destruct (existsb (String.eqb (mode raw)) mode_choices); cbn [negb];
    [|intros H; discriminate H].
  intros H. injection H as <- _.
  destruct (apply_mode_pattern raw) as [-> | ->]; [|reflexivity].
  rewrite <- choices_are_keys. exact Hp.
Qed.

Definition legacy_args : args :=
  {| dns_noise := true; http_flood := false; tcp_noise := false;
     udp_noise := false; args_pattern := "browsing";
     args_intensity := 1.0%float; args_tor_mode := false;
     verbose := false; mode := "chaotic" |}.

Lemma X3_accepted_pattern_is_in_table_witness :
  parse_args legacy_args quiet_env initial_state
    = (Ret legacy_args, initial_state) /\
  args_pattern (apply_mode legacy_args) = "chaotic" /\
  has_key TRAFFIC_PATTERNS (args_pattern (apply_mode legacy_args)) = true.
Proof.
  split; [reflexivity|]. split; [reflexivity|].
  exact (proj2 (X3_accepted_pattern_is_in_table legacy_args legacy_args
                  quiet_env initial_state initial_state) eq_refl).
Defined.

(** ** The intensity range test *)

(** X4.  The range test of [main] (line 453) rejects a number exactly
    when it is not in the closed interval [0.1, 10.0]; NaN, which
    [float("nan")] produces for [--intensity nan], is not rejected, and
    [main] goes on to start the tool with it. *)
Theorem X4_range_test_rejects_numbers_outside_and_not_nan
    (raw : args) (fuel : nat) (e : env) (s : state) :
  (F64.is_num (args_intensity raw) ->
   out_of_range (args_intensity raw)
     = negb ((0.1 <=? args_intensity raw)%float
             && (args_intensity raw <=? 10.0)%float)) /\
  (is_nan (args_intensity raw) = true ->
   out_of_range (args_intensity raw) = false /\
   (In (args_pattern raw) pattern_choices ->
    In (mode raw) mode_choices ->
    main raw fuel e s = launch (apply_mode raw) fuel e s)).
Proof.
  split.
  - intros Hn. unfold out_of_range.
    assert (H01 : F64.is_num 0.1%float) by (vm_compute; discriminate).
    assert (H10 : F64.is_num 10.0%float) by (vm_compute; discriminate).
    rewrite (F64.ltb_negb_leb 0.1%float _ H01 Hn).
    rewrite (F64.ltb_negb_leb _ 10.0%float Hn H10).
    rewrite negb_andb. reflexivity.
  - intros Hnan.
    assert (Ho : out_of_range (args_intensity raw) = false).
    { unfold out_of_range.
      rewrite (ltb_nan_l _ _ Hnan), (ltb_nan_r _ _ Hnan). reflexivity. }
    split; [exact Ho|]. intros Hp Hm.
    apply main_accepts_intensity; assumption.
Qed.

Lemma X4_range_test_rejects_numbers_outside_and_not_nan_witness :
  out_of_range 10.5%float = true /\
  out_of_range nan = false /\
  main (sample_args "gaming" nan) 2 quiet_env initial_state
    = launch (sample_args "gaming" nan) 2 quiet_env initial_state.
Proof.
  split; [|split].
  - assert (Hn : F64.is_num 10.5%float) by (vm_compute; discriminate).
    exact (proj1 (X4_range_test_rejects_numbers_outside_and_not_nan
                    (sample_args "gaming" 10.5%float) 2 quiet_env
                    initial_state) Hn).
  - exact (proj1 (proj2 (X4_range_test_rejects_numbers_outside_and_not_nan
                           (sample_args "gaming" nan) 2 quiet_env
                           initial_state) eq_refl)).
  - apply (proj2 (proj2 (X4_range_test_rejects_numbers_outside_and_not_nan
                           (sample_args "gaming" nan) 2 quiet_env
                           initial_state) eq_refl)); simpl; tauto.
Defined.

(** ** A NaN intensity inside the engine *)

Lemma div_nan_r x i : is_nan i = true -> is_nan (x / i)%float = true.
Proof.
  intros H. apply nan_is_nan. rewrite div_spec, (is_nan_Prim2SF i H).
  unfold SF64div. destruct (Prim2SF x); reflexivity.
Qed.

Lemma eqb_nan_l x y : is_nan x = true -> (x =? y)%float = false.
Proof.
  intros H. rewrite eqb_spec, (is_nan_Prim2SF x H). reflexivity.
Qed.

Lemma pace_nan e s pf :
  dict_get TRAFFIC_PATTERNS (pattern s) = Some pf ->
  is_nan (intensity s) = true ->
  pace e s = (Raise ValueError, drawn s).
Proof.
  intros Hpf Hnan.
  rewrite (pace_spec e s pf Hpf (eqb_nan_l _ _ Hnan)).
  set (d := drawn_delay pf (intensity s) (rnd e (tick s))).
  assert (Hd : is_nan d = true) by (apply div_nan_r; exact Hnan).
  unfold tor_floor. rewrite (ltb_nan_l d _ Hd), andb_false_r.
  unfold time_sleep. rewrite Hd. reflexivity.
Qed.

(** X5.  With a known pattern and a NaN intensity (which [main] lets
    through), the gate of every generator lets every draw pass, and the
    pacing step raises [ValueError] from [time.sleep] instead of
    sleeping.  So an iteration whose act succeeds counts it and ends,
    swallowed by the loop's handler, without any sleep: the generator
    sends traffic as fast as the network calls return. *)
Theorem X5_nan_intensity_never_skips_and_never_sleeps
    (p : protocol) (fuel : nat) (e : env) (s s1 : state) (pf : profile) :
  dict_get TRAFFIC_PATTERNS (pattern s) = Some pf ->
  is_nan (intensity s) = true ->
  (forall rest, gated p rest e s = rest e (drawn s)) /\
  pace e s = (Raise ValueError, drawn s) /\
  (act p fuel e (drawn s) = (Ret tt, s1) ->
   try_except_pass (iteration p fuel) e s
     = (Ret tt, drawn (set_stats (stat_incr p (self_stats s1)) s1)) /\
   self_stats s1 = self_stats s /\
   exists evs, trace s1 = trace s ++ evs /\ existsb is_sleep evs = false).
Proof.
  intros Hpf Hnan.
  assert (Hg : forall rest, gated p rest e s = rest e (drawn s)).
  { intros rest. rewrite (gated_spec p rest e s pf Hpf).
    rewrite (ltb_nan_l _ _ (mul_nan_r (ratio p pf) _ Hnan)). reflexivity. }
  split; [exact Hg|]. split; [exact (pace_nan e s pf Hpf Hnan)|].
  intros Ha.
  destruct (io_act p fuel e (drawn s)) as [Hc (evs & Ht & Hev)].
  rewrite Ha in Hc, Ht. cbn [snd] in Hc, Ht.
  destruct Hc as (_ & _ & Hi & Hp & _ & Hst & _).
  split; [|split].
  - apply try_except_pass_caught with (x := ValueError); [|reflexivity].
    unfold iteration. rewrite Hg.
    rewrite (bind_Ret _ _ e _ _ _ Ha).
    rewrite (bind_Ret _ _ e s1 tt
               (set_stats (stat_incr p (self_stats s1)) s1) eq_refl).
    apply (pace_nan e _ pf).
    + change (pattern (set_stats (stat_incr p (self_stats s1)) s1))
        with (pattern s1). rewrite Hp. exact Hpf.
    + change (intensity (set_stats (stat_incr p (self_stats s1)) s1))
        with (intensity s1). rewrite Hi. exact Hnan.
  - exact Hst.
  - exists evs. split; [exact Ht | apply forallb_not_sleep; exact Hev].
Qed.

Lemma X5_nan_intensity_never_skips_and_never_sleeps_witness :
  let s := tor_state "chaotic" nan true in
  try_except_pass (iteration Dns 0) (gate_env 0.99%float) s
    = (Ret tt,
       set_tick 7
         (set_stats {| dns := 1; http := 0; tcp := 0; udp := 0 |}
            (set_trace [Resolve "www.google.com" "A" true] s))).
Proof.
  intros s.
  pose (pf := {| http_ratio := 1.0; dns_ratio := 1.0; tcp_ratio := 1.0;
                 udp_ratio := 1.0; interval_min := 0.1;
                 interval_max := 0.5 |}%float).
  exact (proj1 (proj2 (proj2
           (X5_nan_intensity_never_skips_and_never_sleeps Dns 0
              (gate_env 0.99%float) s
              (set_tick 6 (set_trace [Resolve "www.google.com" "A" true] s))
              pf eq_refl eq_refl)) eq_refl)).
Defined.

(** ** The statistics reporter *)

(** The state after one report: ten seconds slept, the counters logged,
    then reset. *)
Definition reported (e : env) (s : state) : state :=
  set_stats zero_stats
    (set_trace (trace s ++ [ Sleep 10.0%float;
                             Log INFO (msg_stats (self_stats s)) ])
       (looked e s)).

Lemma print_stats_unfold fuel e s :
  print_stats (S fuel) e s =
    if running (looked e s)
    then print_stats fuel e (reported e s)
    else (Ret tt, looked e s).
Proof.
  cbn [print_stats].
  rewrite (bind_Ret _ _ e s _ _ (read_running_spec e s)).
  destruct (looked_core e s) as (_ & _ & _ & _ & Hst & _ & Htr).
  destruct (running (looked e s)); [|reflexivity].
  erewrite bind_Ret by (apply (time_sleep_ok 10.0%float); reflexivity).
  erewrite bind_Ret by reflexivity.
  erewrite bind_Ret by apply emit_spec.
  erewrite bind_Ret by reflexivity.
  f_equal. unfold reported. rewrite <- Hst, <- Htr.
  destruct (looked e s); run. rewrite <- app_assoc. reflexivity.
Qed.

(** The events of [n] reports, the first one showing [st]. *)
Fixpoint reports (n : nat) (st : stats) : list event :=
  match n with
  | O => []
  | S k => Sleep 10.0%float :: Log INFO (msg_stats st) :: reports k zero_stats
  end.

(** X6.  [_print_stats] never raises.  While the run flag stays set,
    every turn sleeps 10 seconds, logs the four counters and resets them
    to zero: taken alone, the first report shows the counters found at
    the start, every later one shows zeros, and the counters are zero
    after any completed report. *)
Theorem X6_reporter_logs_then_resets (n : nat) (e : env) (s : state) :
  escaped (fst (print_stats n e s)) = false /\
  (running s = true -> (forall t, cleared e t = false) ->
   fst (print_stats n e s) = OutOfFuel /\
   trace (snd (print_stats n e s)) = trace s ++ reports n (self_stats s) /\
   (0 < n -> self_stats (snd (print_stats n e s)) = zero_stats)).
Proof.
  split.
  - revert s. induction n as [|n IH]; intros s; [reflexivity|].
    rewrite print_stats_unfold.
    destruct (running (looked e s)); [apply IH | reflexivity].
  - intros Hr Hc. revert s Hr.
    induction n as [|n IH]; intros s Hr.
    + cbn [print_stats reports fst snd out_of_fuel]. rewrite app_nil_r.
      repeat split. lia.
    + rewrite print_stats_unfold, (looked_quiet e s (Hc _)).
      change (running (drawn s)) with (running s). rewrite Hr.
      assert (Hrep : reported e s
                     = set_stats zero_stats
                         (set_trace (trace s ++ [ Sleep 10.0%float;
                                       Log INFO (msg_stats (self_stats s)) ])
                            (drawn s))).
      { unfold reported. rewrite (looked_quiet e s (Hc _)). reflexivity. }
      rewrite Hrep.
      destruct (IH (set_stats zero_stats
                      (set_trace (trace s ++ [ Sleep 10.0%float;
                                    Log INFO (msg_stats (self_stats s)) ])
                         (drawn s))) Hr) as (H1 & H2 & H3).
      split; [exact H1|]. split.
      * rewrite H2. cbn [trace set_stats set_trace reports].
        rewrite <- app_assoc. reflexivity.
      * intros _. destruct n as [|n]; [reflexivity | apply H3; lia].
Qed.

Lemma X6_reporter_logs_then_resets_witness :
  let s := set_stats {| dns := 3; http := 7; tcp := 0; udp := 2 |}
             initial_state in
  trace (snd (print_stats 2 quiet_env s))
    = [ Sleep 10.0%float;
        Log INFO (msg_stats {| dns := 3; http := 7; tcp := 0; udp := 2 |});
        Sleep 10.0%float; Log INFO (msg_stats zero_stats) ] /\
  self_stats (snd (print_stats 2 quiet_env s)) = zero_stats.
Proof.
  intros s.
  destruct (proj2 (X6_reporter_logs_then_resets 2 quiet_env s) eq_refl
              (fun _ => eq_refl)) as (_ & H2 & H3).
  split; [exact H2 | apply H3; lia].
Defined.

(** ** The counters *)

Definition any_event (ev : event) : bool := true.

Lemma io_pace : io any_event pace.
Proof.
  unfold pace, traffic_pattern, random_uniform, truediv, time_sleep.
  walk_net.
Qed.

Lemma io_weaken (P Q : event -> bool) {A} (m : M A) :
  (forall ev, P ev = true -> Q ev = true) -> io P m -> io Q m.
Proof.
  intros H Hm e s. destruct (Hm e s) as [Hc (evs & He & Hf)].
  split; [exact Hc|]. exists evs. split; [exact He|].
  rewrite forallb_forall in *. auto.
Qed.

(** One iteration leaves the counters as they were or adds one to the
    counter of its own protocol. *)
Lemma iteration_stats p fuel e s :
  self_stats (snd (iteration p fuel e s)) = self_stats s \/
  self_stats (snd (iteration p fuel e s)) = stat_incr p (self_stats s).
Proof.
  unfold iteration.
  destruct (dict_get TRAFFIC_PATTERNS (pattern s)) as [pf|] eqn:Hpf.
  - rewrite (gated_spec p _ e s pf Hpf).
    destruct (ratio p pf * intensity s <? rnd e (tick s))%float;
      [left; reflexivity|].
    destruct (io_act p fuel e (drawn s)) as [(_ & _ & _ & _ & _ & Hst & _) _].
    destruct (act p fuel e (drawn s)) as [[[]|x|] s1] eqn:Ha;
      cbn [snd] in Hst.
    + right. rewrite (bind_Ret _ _ e _ _ _ Ha).
      rewrite (bind_Ret _ _ e s1 tt
                 (set_stats (stat_incr p (self_stats s1)) s1) eq_refl).
      destruct (io_pace e (set_stats (stat_incr p (self_stats s1)) s1))
        as [(_ & _ & _ & _ & _ & Hp & _) _].
      rewrite Hp. cbn [self_stats set_stats]. rewrite Hst. reflexivity.
    + left. rewrite (bind_Raise _ _ e _ _ _ Ha). exact Hst.
    + left. unfold bind. rewrite Ha. exact Hst.
  - left. rewrite (gated_unknown p _ e s Hpf). reflexivity.
Qed.

Lemma stat_incr_own p st : stat p (stat_incr p st) = (stat p st + 1)%Z.
Proof. destruct p; reflexivity. Qed.

Lemma stat_incr_other p q st : p <> q -> stat q (stat_incr p st) = stat q st.
Proof. destruct p, q; intros H; try reflexivity; congruence. Qed.

(** X7.  Each generator touches only its own counter: after any number
    of turns of generator [p], in any environment, the counter of every
    other protocol is what it was, the counter of [p] has not decreased,
    and it has grown by at most the number of turns. *)
Theorem X7_generator_counts_only_its_own_protocol
    (p q : protocol) (fuel n : nat) (e : env) (s : state) :
  let s' := snd (generator_loop (iteration p fuel) n e s) in
  (p <> q -> stat q (self_stats s') = stat q (self_stats s)) /\
  (stat p (self_stats s) <= stat p (self_stats s')
     <= stat p (self_stats s) + Z.of_nat n)%Z.
Proof.
  cbv zeta.
  assert (H : forall n s0,
             (forall q, p <> q ->
                stat q (self_stats
                          (snd (generator_loop (iteration p fuel) n e s0)))
                = stat q (self_stats s0)) /\
             (stat p (self_stats s0)
              <= stat p (self_stats
                           (snd (generator_loop (iteration p fuel) n e s0)))
              <= stat p (self_stats s0) + Z.of_nat n)%Z).
  { clear n s. induction n as [|n IH]; intros s0.
    - cbn [generator_loop snd out_of_fuel]. split; [reflexivity | lia].
    - rewrite generator_loop_unfold.
      destruct (looked_core e s0) as (_ & _ & _ & _ & Hst & _).
      destruct (running (looked e s0));
        [|cbn [snd]; rewrite Hst; split; [reflexivity | lia]].
      pose proof (try_except_pass_state (iteration p fuel) e (looked e s0))
        as Ht.
      pose proof (iteration_stats p fuel e (looked e s0)) as Hi.
      rewrite <- Ht, Hst in Hi.
      destruct (try_except_pass (iteration p fuel) e (looked e s0))
        as [[[]|x|] s1]; cbn [snd] in Hi |- *.
      + destruct (IH s1) as [I1 I2]. destruct Hi as [Hi|Hi].
        * rewrite <- Hi. split; [exact I1 | lia].
        * split.
          -- intros q' Hq. rewrite (I1 q' Hq), Hi.
             apply stat_incr_other. exact Hq.
          -- rewrite Hi, stat_incr_own in I2. lia.
      + destruct Hi as [Hi|Hi]; rewrite Hi.
        * split; [reflexivity | lia].
        * split; [intros q' Hq; apply stat_incr_other; exact Hq|].
          rewrite stat_incr_own. lia.
      + destruct Hi as [Hi|Hi]; rewrite Hi.
        * split; [reflexivity | lia].
        * split; [intros q' Hq; apply stat_incr_other; exact Hq|].
          rewrite stat_incr_own. lia. }
  destruct (H n s) as [H1 H2]. split; [apply H1 | exact H2].
Qed.

Lemma X7_generator_counts_only_its_own_protocol_witness :
  let s' := snd (generator_loop (iteration Http 0) 3 quiet_env
                   (tor_state "chaotic" 1.0%float false)) in
  stat Dns (self_stats s') = 0%Z /\
  (0 <= stat Http (self_stats s') <= 3)%Z.
Proof.
  intros s'.
  assert (Hneq : Http <> Dns) by discriminate.
  destruct (X7_generator_counts_only_its_own_protocol Http Dns 0 3 quiet_env
              (tor_state "chaotic" 1.0%float false)) as [H1 H2].
  split; [exact (H1 Hneq)|].
  exact (proj2 (X7_generator_counts_only_its_own_protocol Http Http 0 3
                  quiet_env (tor_state "chaotic" 1.0%float false))).
Defined.

(** ** Tor mode and the length of sleeps *)

(** On numbers the Tor-mode floor is at least one second. *)
Lemma tor_floor_at_least_one d :
  F64.is_num d -> (1.0 <=? tor_floor true d)%float = true.
Proof.
  intros Hd. unfold tor_floor, py_max. cbn [andb].
  destruct (d <? 1.0)%float eqn:E; [reflexivity|].
  assert (H1 : F64.is_num 1.0%float) by (vm_compute; discriminate).
  rewrite (F64.ltb_negb_leb 1.0%float d H1 Hd) in E.
  destruct (1.0 <=? d)%float; [reflexivity | discriminate].
Qed.

Lemma tor_floor_nan d : is_nan d = true -> tor_floor true d = d.
Proof.
  intros H. unfold tor_floor. rewrite (ltb_nan_l d _ H). reflexivity.
Qed.

(** X12.  In Tor mode the pacing step never sleeps less than one second:
    whatever the pattern, the intensity and the draw, [pace] either
    raises without sleeping or sleeps once, for at least 1.0 second.
    (The gate's back-off of 0.1 second is not floored.) *)
Theorem X12_tor_mode_pacing_sleeps_at_least_one_second
    (e : env) (s : state) :
  tor_mode s = true ->
  (trace (snd (pace e s)) = trace s /\ returned (fst (pace e s)) = false) \/
  (exists d, trace (snd (pace e s)) = trace s ++ [Sleep d] /\
             (1.0 <=? d)%float = true /\ fst (pace e s) = Ret tt).
Proof.
  intros Htor.
  destruct (dict_get TRAFFIC_PATTERNS (pattern s)) as [pf|] eqn:Hpf.
  - destruct (intensity s =? 0)%float eqn:Hi.
    + left. unfold pace.
      rewrite (bind_Ret _ _ e s _ _ (traffic_pattern_known e s pf Hpf)).
      rewrite (bind_Ret _ _ e s _ _ (traffic_pattern_known e s pf Hpf)).
      erewrite bind_Ret by reflexivity.
      erewrite bind_Ret by reflexivity.
      unfold truediv. cbn [intensity drawn set_tick]. rewrite Hi.
      split; reflexivity.
    + rewrite (pace_spec e s pf Hpf Hi), Htor.
      set (d := drawn_delay pf (intensity s) (rnd e (tick s))).
      destruct (time_sleep_cases (tor_floor true d) e (drawn s))
        as [(x & Hs & _) | [Hn Hs]]; rewrite Hs.
      * left. split; reflexivity.
      * right. exists (tor_floor true d). repeat split.
        unfold sleepable in Hn. apply andb_prop in Hn. destruct Hn as [Hn _].
        destruct (is_nan d) eqn:Hd.
        -- rewrite (tor_floor_nan d Hd), (leb_nan_r _ _ Hd) in Hn.
           discriminate.
        -- apply tor_floor_at_least_one, is_nan_false_is_num. exact Hd.
  - left. unfold pace.
    rewrite (bind_Raise _ _ e s _ _ (traffic_pattern_unknown e s Hpf)).
    split; reflexivity.
Qed.

Lemma X12_tor_mode_pacing_sleeps_at_least_one_second_witness :
  let e := gate_env 0.0%float in
  let s := tor_state "gaming" 10.0%float true in
  (trace (snd (pace e s)) = trace s /\ returned (fst (pace e s)) = false) \/
  (exists d, trace (snd (pace e s)) = trace s ++ [Sleep d] /\
             (1.0 <=? d)%float = true /\ fst (pace e s) = Ret tt).
Proof.
  exact (X12_tor_mode_pacing_sleeps_at_least_one_second
           (gate_env 0.0%float) (tor_state "gaming" 10.0%float true)
           eq_refl).
Defined.

(** ** How [main] ends *)

Lemma keep_alive_quiet fuel :
  forall e s,
    running s = true ->
    (forall t, sigint e t = false) ->
    fst (keep_alive fuel e s) = OutOfFuel.
Proof.
  induction fuel as [|fuel IH]; intros e s Hr Hq; [reflexivity|].
  rewrite (keep_alive_unfold fuel e s Hr).
  rewrite (time_sleep_main_quiet e s (Hq _)).
  apply IH; [exact Hr | exact Hq].
Qed.

Lemma launch_outcome a fuel e s :
  forall x, fst (launch a fuel e s) = Raise x -> x = SystemExit 0.
Proof.
  unfold launch.
  erewrite bind_Ret by apply emit_spec.
  erewrite bind_Ret by reflexivity.
  erewrite bind_Ret by reflexivity.
  apply start_outcome.
Qed.

Definition choices_ok (raw : args) : bool :=
  (existsb (String.eqb (args_pattern raw)) pattern_choices
   && existsb (String.eqb (mode raw)) mode_choices)%bool.

Lemma parse_args_spec raw e s :
  parse_args raw e s =
    if choices_ok raw then (Ret raw, s)
    else (Raise (SystemExit 2),
          set_trace
            (trace s ++
             [ParserError
                (if existsb (String.eqb (args_pattern raw)) pattern_choices
                 then "--mode" else "--pattern")]) s).
Proof.
  unfold parse_args, choices_ok.
  destruct (existsb (String.eqb (args_pattern raw)) pattern_choices);
    [|reflexivity].
  destruct (existsb (String.eqb (mode raw)) mode_choices); reflexivity.
Qed.

(** X13.  The exit status of [main] on a command line that argparse
    can read (known options only, a float literal after [--intensity],
    no [--help]), as a function of the option values, whatever the
    environment: 2 when [--pattern] or [--mode] is outside its choices;
    otherwise 1 when the range test rejects the intensity; otherwise
    the tool is started and the process can only end with status 0.  In
    the last case, with no generator selected it does end, with status
    0, right after the warning; with a generator selected and no SIGINT
    it is still running after any number of seconds.  (Command lines
    that argparse cannot read never reach these tests: argparse ends
    them with status 2, or 0 after [--help].) *)
Theorem X13_exit_status_of_main (raw : args) (fuel : nat) (e : env) :
  let r := main raw fuel e initial_state in
  (choices_ok raw = false -> exit_status (fst r) = Some 2%Z) /\
  (choices_ok raw = true -> out_of_range (args_intensity raw) = true ->
   exit_status (fst r) = Some 1%Z) /\
  (choices_ok raw = true -> out_of_range (args_intensity raw) = false ->
   (exit_status (fst r) = Some 0%Z \/ exit_status (fst r) = None) /\
   (no_generator raw = true ->
    exit_status (fst r) = Some 0%Z /\
    last (trace (snd r)) PrintBanner = Log WARNING msg_no_generators) /\
   (no_generator raw = false -> (forall t, sigint e t = false) ->
    exit_status (fst r) = None)).
Proof.
  cbv zeta. unfold main.
  split; [|split].
  - intros Hc.
    erewrite bind_Raise by (rewrite parse_args_spec, Hc; reflexivity).
    reflexivity.
  - intros Hc Ho.
    erewrite bind_Ret by (rewrite parse_args_spec, Hc; reflexivity).
    unfold out_of_range in Ho. rewrite Ho. cbv beta iota.
    erewrite bind_Raise by reflexivity.
    reflexivity.
  - intros Hc Ho.
    erewrite bind_Ret by (rewrite parse_args_spec, Hc; reflexivity).
    unfold out_of_range in Ho. rewrite Ho. cbv beta iota.
    erewrite bind_Ret by reflexivity.
    assert (Hng : no_generator (apply_mode raw) = no_generator raw).
    { unfold apply_mode.
      destruct (String.eqb (mode raw) "chaotic"
                && String.eqb (args_pattern raw) "browsing")%bool;
        reflexivity. }
    split; [|split].
    + pose proof (launch_outcome (apply_mode raw) fuel e initial_state) as H.
      destruct (fst (launch (apply_mode raw) fuel e initial_state))
        as [[]|x|]; [left | left | right]; try reflexivity.
      rewrite (H x eq_refl). reflexivity.
    + intros Hn. rewrite <- Hng in Hn. unfold launch.
      erewrite bind_Ret by apply emit_spec.
      erewrite bind_Ret by reflexivity.
      erewrite bind_Ret by reflexivity.
      rewrite (start_nothing_enabled _ fuel e _ Hn). cbn [fst snd].
      split; [reflexivity|].
      cbn [trace set_trace]. rewrite !app_assoc. apply last_last.
    + intros Hn Hq. rewrite <- Hng in Hn. unfold launch.
      erewrite bind_Ret by apply emit_spec.
      erewrite bind_Ret by reflexivity.
      erewrite bind_Ret by reflexivity.
      rewrite (start_enabled _ fuel e _ Hn).
      unfold try_except_KeyboardInterrupt.
      pose proof (keep_alive_quiet fuel e
                    (prepared (apply_mode raw)
                       (set_stats zero_stats
                          (set_config 1.0%float "browsing" false
                             (set_threads []
                                (set_handler true
                                   (set_trace
                                      (trace initial_state ++ [SignalInstall])
                                      initial_state))))))
                    eq_refl Hq) as Hk.
      match goal with
      | |- context [keep_alive fuel e ?st] =>
          change st with
            (prepared (apply_mode raw)
               (set_stats zero_stats
                  (set_config 1.0%float "browsing" false
                     (set_threads []
                        (set_handler true
                           (set_trace
                              (trace initial_state ++ [SignalInstall])
                              initial_state))))))
      end.
      destruct (keep_alive fuel e _) as [o s1]. cbn [fst] in Hk.
      rewrite Hk. reflexivity.
Qed.

Lemma X13_exit_status_of_main_witness :
  exit_status (fst (main (sample_args "stealth" 1.0%float) 4 quiet_env
                      initial_state)) = Some 2%Z /\
  exit_status (fst (main (sample_args "gaming" 0.05%float) 4 quiet_env
                      initial_state)) = Some 1%Z /\
  exit_status (fst (main (idle_args true) 4 quiet_env initial_state))
    = Some 0%Z /\
  exit_status (fst (main (sample_args "gaming" 1.0%float) 4 quiet_env
                      initial_state)) = None.
Proof.
  split; [|split; [|split]].
  - exact (proj1 (X13_exit_status_of_main
                    (sample_args "stealth" 1.0%float) 4 quiet_env) eq_refl).
  - exact (proj1 (proj2 (X13_exit_status_of_main
                    (sample_args "gaming" 0.05%float) 4 quiet_env))
             eq_refl eq_refl).
  - exact (proj1 (proj1 (proj2 (proj2 (proj2 (X13_exit_status_of_main
                    (idle_args true) 4 quiet_env)) eq_refl eq_refl))
             eq_refl)).
  - exact (proj2 (proj2 (proj2 (proj2 (X13_exit_status_of_main
                    (sample_args "gaming" 1.0%float) 4 quiet_env))
             eq_refl eq_refl)) eq_refl (fun _ => eq_refl)).
Defined.

(** ** The threads [start] leaves behind *)

Lemma time_sleep_main_threads e s :
  threads (snd (time_sleep_main 1.0%float e s)) = threads s.
Proof.
  destruct s.
  cbv [time_sleep_main time_sleep deliver_sigint signal_handler]; run. simpl.
  destruct (sigint e tick0); run; [destruct handler_installed0; run|];
    reflexivity.
Qed.

Lemma keep_alive_threads fuel :
  forall e s, threads (snd (keep_alive fuel e s)) = threads s.
Proof.
  induction fuel as [|fuel IH]; intros e s; [reflexivity|].
  rewrite keep_alive_unfold_any. destruct (running s); [|reflexivity].
  pose proof (time_sleep_main_threads e s) as Ht.
  destruct (time_sleep_main 1.0%float e s) as [[[]|x|] s1];
    cbn [snd] in Ht |- *; try exact Ht.
  rewrite IH. exact Ht.
Qed.

(** X15.  Whatever happens afterwards, [start] has appended to
    [self.threads] exactly one thread per selected generator, in the
    order DNS, HTTP, TCP, UDP, followed by the statistics thread when
    [verbose] is set, and nothing else: a generator's thread is in the
    list if and only if its flag was given. *)
Theorem X15_start_spawns_one_thread_per_selected_generator
    (a : args) (fuel : nat) (e : env) (s : state) (p : protocol) :
  threads (snd (start a fuel e s)) = threads s ++ spawned a /\
  (In (generator_task p) (spawned a) <-> enabled p a = true) /\
  (In print_stats_task (spawned a) <-> verbose a = true) /\
  NoDup (spawned a).
Proof.
  split; [|split; [|split]].
  - destruct (no_generator a) eqn:Hg.
    + rewrite (start_nothing_enabled a fuel e s Hg).
      cbn [snd threads set_trace set_threads].
      unfold no_generator in Hg. unfold spawned.
      destruct (dns_noise a), (http_flood a), (tcp_noise a), (udp_noise a);
        try discriminate. reflexivity.
    + rewrite (start_enabled a fuel e s Hg).
      unfold try_except_KeyboardInterrupt.
      pose proof (keep_alive_threads fuel e (prepared a s)) as Hk.
      destruct (keep_alive fuel e (prepared a s)) as [[[]|x|] s1];
        cbn [snd] in Hk |- *; try exact Hk.
      destruct x; try exact Hk. rewrite stop_spec. exact Hk.
  - destruct a as [d h t u pat i tor v md]. unfold spawned; cbn.
    destruct p, d, h, t, u, v; cbn; split; intros H;
      try reflexivity; try discriminate; try tauto;
      repeat (destruct H as [H|H]; try discriminate H); try contradiction.
  - destruct a as [d h t u pat i tor v md]. unfold spawned; cbn.
    destruct d, h, t, u, v; cbn; split; intros H;
      try reflexivity; try discriminate; try tauto;
      repeat (destruct H as [H|H]; try discriminate H); try contradiction.
  - destruct a as [d h t u pat i tor v md]. unfold spawned; cbn.
    destruct d, h, t, u, v; cbn;
      repeat (constructor; [cbn; intros H;
                repeat (destruct H as [H|H]; try discriminate H);
                contradiction|]);
      constructor.
Qed.

Lemma X15_start_spawns_one_thread_per_selected_generator_witness :
  threads (snd (start (sample_args "gaming" 1.0%float) 3 quiet_env
                  initial_state))
    = [generate_dns_noise_task; generate_udp_noise_task] /\
  In (generator_task Udp) (spawned (sample_args "gaming" 1.0%float)).
Proof.
  destruct (X15_start_spawns_one_thread_per_selected_generator
              (sample_args "gaming" 1.0%float) 3 quiet_env initial_state Udp)
    as (H1 & H2 & _).
  split; [exact H1 | exact (proj2 H2 eq_refl)].
Defined.

(** ** Drawing a public address *)

(** X14.  [get_random_ip] draws four octets in 1..254 per attempt and
    returns the first address that [is_private] does not flag: when the
    [k]-th address drawn (counting from 0) is the first public one, any
    fuel above [k] lets the loop return exactly that address after
    [4 * (k + 1)] draws, leaving no event. *)
Theorem X14_get_random_ip_returns_first_public_address
    (k fuel : nat) (e : env) (s : state) :
  (forall j, j < k -> is_private e (drawn_ip e (4 * j + tick s)) = true) ->
  is_private e (drawn_ip e (4 * k + tick s)) = false ->
  k < fuel ->
  get_random_ip fuel e s
    = (Ret (drawn_ip e (4 * k + tick s)), set_tick (4 * S k + tick s) s) /\
  is_private e (drawn_ip e (4 * k + tick s)) = false /\
  trace (set_tick (4 * S k + tick s) s) = trace s.
Proof.
  intros Hpriv Hpub Hf.
  split; [apply get_random_ip_returns; assumption|].
  split; [exact Hpub | reflexivity].
Qed.

(** An environment whose first drawn address, 10.1.1.1, is private and
    whose second, 11.1.1.1, is not. *)
Definition ip_env : env :=
  {| rnd := fun _ => 0.25%float;
     pick := fun t => match t with 0 => 9 | 4 => 10 | _ => 0 end;
     net := fun _ => true; cleared := fun _ => false;
     now := fun _ => "2024-01-01 00:00:00";
     is_private := String.eqb "10.1.1.1"; sigint := fun _ => false;
     resolv_conf := true |}.

Lemma X14_get_random_ip_returns_first_public_address_witness :
  get_random_ip 2 ip_env initial_state
    = (Ret "11.1.1.1", set_tick 8 initial_state).
Proof.
  assert (Hpriv : forall j, j < 1 ->
            is_private ip_env (drawn_ip ip_env (4 * j + tick initial_state))
            = true).
  { intros j Hj. assert (j = 0) by lia. subst j. reflexivity. }
  assert (Hf : 1 < 2) by lia.
  exact (proj1 (X14_get_random_ip_returns_first_public_address 1 2 ip_env
                  initial_state Hpriv eq_refl Hf)).
Defined.

(** ** Seeing the flag cleared *)

(** X16.  A generator looks at [running] only at the top of each turn.
    When it finds the flag cleared there (already false, or cleared by
    another thread since the last look) it returns normally at once:
    no event is added and no counter changes, and the flag it leaves is
    false. *)
Theorem X16_generator_returns_quietly_once_flag_is_cleared
    (p : protocol) (fuel n : nat) (e : env) (s : state) :
  running s = false \/ cleared e (tick s) = true ->
  let r := generator_loop (iteration p fuel) (S n) e s in
  fst r = Ret tt /\
  running (snd r) = false /\
  trace (snd r) = trace s /\
  self_stats (snd r) = self_stats s.
Proof.
  intros H r. subst r.
  assert (Hr : running (looked e s) = false).
  { unfold looked. destruct (cleared e (tick s)) eqn:Hc; [reflexivity|].
    destruct H as [H|H]; [exact H | discriminate H]. }
  rewrite (generator_loop_stop _ n e s Hr).
  destruct (looked_core e s) as (_ & _ & _ & _ & Hst & _ & Htr).
  repeat split; assumption.
Qed.

Definition stopping_env : env :=
  {| rnd := fun _ => 0.25%float; pick := fun _ => 0; net := fun _ => true;
     cleared := fun t => Nat.eqb t 0;
     now := fun _ => "2024-01-01 00:00:00";
     is_private := fun _ => false; sigint := fun _ => false;
     resolv_conf := true |}.

Lemma X16_generator_returns_quietly_once_flag_is_cleared_witness :
  let r := generator_loop (iteration Http 0) 3 stopping_env initial_state in
  fst r = Ret tt /\
  running (snd r) = false /\
  trace (snd r) = trace initial_state /\
  self_stats (snd r) = self_stats initial_state.
Proof.
  exact (X16_generator_returns_quietly_once_flag_is_cleared Http 0 2
           stopping_env initial_state (or_intror eq_refl)).
Defined.

(** ** What the generators put on the network *)

(** [s'] extends the trace of [s] by events that all satisfy [P]. *)
Definition extends (P : event -> Prop) (s s' : state) : Prop :=
  exists evs, trace s' = trace s ++ evs /\ Forall P evs.

(** In environment [e], [m] only emits events satisfying [P], and a
    value it returns satisfies [Q]. *)
Definition emits (e : env) (P : event -> Prop) {A} (m : M A)
    (Q : A -> Prop) : Prop :=
  forall s, extends P s (snd (m e s)) /\
            forall a, fst (m e s) = Ret a -> Q a.

Lemma extends_refl P s : extends P s s.
Proof. exists []. split; [now rewrite app_nil_r | constructor]. Qed.

Lemma extends_same P s s' : trace s' = trace s -> extends P s s'.
Proof. intros H. exists []. split; [now rewrite app_nil_r | constructor]. Qed.

Lemma extends_trans P s1 s2 s3 :
  extends P s1 s2 -> extends P s2 s3 -> extends P s1 s3.
Proof.
  intros (l1 & E1 & F1) (l2 & E2 & F2). exists (l1 ++ l2). split.
  - rewrite E2, E1, app_assoc. reflexivity.
  - apply Forall_app. split; assumption.
Qed.

Section Emits.
Variable e : env.
Variable P : event -> Prop.

Lemma emits_ret {A} (a : A) (Q : A -> Prop) : Q a -> emits e P (ret a) Q.
Proof.
  intros H s. split; [apply extends_refl|].
  intros b Hb. injection Hb as <-. exact H.
Qed.

Lemma emits_raise {A} x (Q : A -> Prop) : emits e P (raise x) Q.
Proof. intros s. split; [apply extends_refl | discriminate]. Qed.

Lemma emits_out_of_fuel {A} (Q : A -> Prop) : emits e P out_of_fuel Q.
Proof. intros s. split; [apply extends_refl | discriminate]. Qed.

Lemma emits_ask {A} (f : env -> A) : emits e P (ask f) (fun a => a = f e).
Proof.
  intros s. split; [apply extends_refl|].
  intros a H. injection H as <-. reflexivity.
Qed.

Lemma emits_gets {A} (f : state -> A) : emits e P (gets f) (fun _ => True).
Proof. intros s. split; [apply extends_refl | trivial]. Qed.

Lemma emits_next_tick : emits e P next_tick (fun _ => True).
Proof. intros s. split; [apply extends_same; reflexivity | trivial]. Qed.

Lemma emits_emit ev : P ev -> emits e P (emit ev) (fun _ => True).
Proof.
  intros H s. split; [|trivial]. exists [ev]. split; [reflexivity|].
  constructor; [exact H | constructor].
Qed.

Lemma emits_bind {A B} (m : M A) (k : A -> M B) (Q : A -> Prop)
    (R : B -> Prop) :
  emits e P m Q -> (forall a, Q a -> emits e P (k a) R) ->
  emits e P (bind m k) R.
Proof.
  intros Hm Hk s. unfold bind. destruct (Hm s) as [Hx Hq].
  destruct (m e s) as [[a|x|] s1]; cbn [fst snd] in *.
  - destruct (Hk a (Hq a eq_refl) s1) as [Hx' Hr].
    split; [eapply extends_trans; eassumption | exact Hr].
  - split; [exact Hx | discriminate].
  - split; [exact Hx | discriminate].
Qed.

Lemma emits_weaken {A} (m : M A) (Q R : A -> Prop) :
  (forall a, Q a -> R a) -> emits e P m Q -> emits e P m R.
Proof.
  intros H Hm s. destruct (Hm s) as [Hx Hq]. split; [exact Hx|].
  intros a Ha. apply H, Hq, Ha.
Qed.

Lemma emits_random_random : emits e P random_random (fun _ => True).
Proof.
  unfold random_random. eapply emits_bind; [apply emits_next_tick|].
  intros t _. eapply emits_weaken; [|apply emits_ask]. trivial.
Qed.

Lemma emits_randbelow n :
  emits e P (randbelow n) (fun i => n <> 0 -> i < n).
Proof.
  unfold randbelow. eapply emits_bind; [apply emits_next_tick|].
  intros t _. eapply emits_weaken; [|apply emits_ask].
  intros i -> Hn. apply Nat.mod_upper_bound. exact Hn.
Qed.

(** [random.choice] returns an element of its sequence. *)
Lemma emits_random_choice {A} (seq : list A) :
  emits e P (random_choice seq) (fun a => In a seq).
Proof.
  unfold random_choice. destruct seq as [|x rest]; [apply emits_raise|].
  eapply emits_bind; [apply emits_randbelow|].
  intros i Hi. apply emits_ret. apply nth_In. apply Hi. discriminate.
Qed.

(** [random.randint(a, b)] returns an integer of [a..b]. *)
Lemma emits_random_randint a b :
  (a <= b)%Z ->
  emits e P (random_randint a b) (fun r => (a <= r <= b)%Z).
Proof.
  intros Hab. unfold random_randint.
  eapply emits_bind; [apply emits_randbelow|].
  intros i Hi. apply emits_ret.
  assert (Hn : Z.to_nat (b - a + 1) <> 0) by lia.
  specialize (Hi Hn). lia.
Qed.

Lemma emits_replicateM {A} n (m : M A) (Q : A -> Prop) :
  emits e P m Q ->
  emits e P (replicateM n m) (fun l => List.length l = n /\ Forall Q l).
Proof.
  intros Hm. induction n as [|n IH]; cbn [replicateM].
  - apply emits_ret. split; [reflexivity | constructor].
  - eapply emits_bind; [exact Hm|]. intros x Hx.
    eapply emits_bind; [exact IH|]. intros xs [Hl Hf].
    apply emits_ret. split; [cbn; now rewrite Hl | constructor; assumption].
Qed.

Lemma emits_net_call ev :
  (forall ok, P (ev ok)) -> emits e P (net_call ev) (fun _ => True).
Proof.
  intros H. unfold net_call.
  eapply emits_bind; [apply emits_next_tick|]. intros t _.
  eapply emits_bind; [apply emits_ask|]. intros ok _.
  eapply emits_bind; [apply emits_emit, H|]. intros _ _.
  destruct ok; [apply emits_ret; trivial | apply emits_raise].
Qed.

(** What [get_random_ip] returns is not private. *)
Lemma emits_get_random_ip fuel :
  emits e P (get_random_ip fuel) (fun ip => is_private e ip = false).
Proof.
  induction fuel as [|fuel IH]; cbn [get_random_ip];
    [apply emits_out_of_fuel|].
  eapply emits_bind.
  { apply (emits_replicateM 4 _ (fun _ => True)).
    eapply emits_bind; [apply (emits_random_randint 1 254); lia|].
    intros n _. apply emits_ret. trivial. }
  intros octets _.
  eapply emits_bind; [apply emits_ask|]. intros priv ->.
  destruct (is_private e (String.concat "." octets)) eqn:Hp; cbn [negb].
  - exact IH.
  - apply emits_ret. exact Hp.
Qed.

(** The loop of a generator emits what its body emits. *)
Lemma emits_generator_loop body n :
  emits e P body (fun _ => True) ->
  emits e P (generator_loop body n) (fun _ => True).
Proof.
  intros Hb s. split; [|trivial].
  apply (generator_loop_invariant (fun s' => extends P s s')).
  - intros s0 H0. eapply extends_trans; [exact H0|].
    apply extends_same. destruct (looked_core e s0) as (_&_&_&_&_&_&Ht).
    exact Ht.
  - intros s0 H0. eapply extends_trans; [exact H0 | apply Hb].
  - apply extends_refl.
Qed.

End Emits.

(** The body of a generator's [try] block emits sleeps and what its act
    emits. *)
Lemma emits_iteration e (P : event -> Prop) p fuel :
  (forall d, P (Sleep d)) ->
  emits e P (act p fuel) (fun _ => True) ->
  emits e P (iteration p fuel) (fun _ => True).
Proof.
  intros Hs Ha.
  assert (Hsleep : forall d, emits e P (time_sleep d) (fun _ => True)).
  { intros d. unfold time_sleep.
    destruct (is_nan d); [apply emits_raise|].
    destruct (negb _); [apply emits_raise|].
    destruct (_ || _)%bool; [apply emits_raise | apply emits_emit, Hs]. }
  assert (Htp : emits e P traffic_pattern (fun _ => True)).
  { unfold traffic_pattern. eapply emits_bind; [apply emits_gets|].
    intros name _. destruct (dict_get TRAFFIC_PATTERNS name);
      [apply emits_ret; trivial | apply emits_raise]. }
  unfold iteration, gated.
  eapply emits_bind; [apply emits_random_random|]. intros u _.
  eapply emits_bind; [exact Htp|]. intros pf _.
  eapply emits_bind; [apply emits_gets|]. intros i _.
  destruct (ratio p pf * i <? u)%float; [apply Hsleep|].
  eapply emits_bind; [exact Ha|]. intros _ _.
  apply emits_bind with (Q := fun _ => True).
  { intros s. split; [apply extends_same; reflexivity | trivial]. }
  intros _ _. unfold pace.
  eapply emits_bind; [exact Htp|]. intros lo _.
  eapply emits_bind; [exact Htp|]. intros hi _.
  apply emits_bind with (Q := fun _ => True).
  { unfold random_uniform. eapply emits_bind; [apply emits_random_random|].
    intros v _. apply emits_ret. exact I. }
  intros d _.
  eapply emits_bind; [apply emits_gets|]. intros j _.
  apply emits_bind with (Q := fun _ => True).
  { unfold truediv. destruct (j =? 0)%float;
      [apply emits_raise | apply emits_ret; exact I]. }
  intros st _.
  eapply emits_bind; [apply emits_gets|]. intros tor _.
  apply Hsleep.
Qed.

(** The events a DNS generator may leave: sleeps, and queries for a
    listed domain, bare or under a listed label, with a listed type. *)
Definition dns_event (ev : event) : Prop :=
  match ev with
  | Sleep _ => True
  | Resolve domain qtype _ =>
      In qtype qtypes /\
      (In domain domains \/
       exists subdomain d,
         In subdomain subdomains /\ In d domains /\
         domain = (subdomain ++ "." ++ d)%string)
  | _ => False
  end.

(** X8.  Whatever the environment answers and however long it runs, the
    DNS generator only sleeps and resolves: every query is for one of
    the 31 listed domains, bare or prefixed by one of the 16 listed
    labels and a dot, with one of the record types A, AAAA, MX, TXT,
    NS. *)
Theorem X8_dns_generator_queries_only_listed_names
    (fuel n : nat) (e : env) (s : state) :
  exists evs,
    trace (snd (generator_loop (iteration Dns fuel) n e s)) = trace s ++ evs /\
    Forall dns_event evs.
Proof.
  apply (emits_generator_loop e dns_event (iteration Dns fuel) n).
  apply emits_iteration; [intros d; exact I|].
  cbn [act]. unfold dns_act.
  eapply emits_bind; [apply emits_random_random|]. intros c _.
  apply emits_bind with
    (Q := fun domain =>
            In domain domains \/
            exists subdomain d,
              In subdomain subdomains /\ In d domains /\
              domain = (subdomain ++ "." ++ d)%string).
  - destruct (0.5 <? c)%float.
    + eapply emits_bind; [apply emits_random_choice|]. intros sub Hsub.
      eapply emits_bind; [apply emits_random_choice|]. intros d Hd.
      apply emits_ret. right. exists sub, d. repeat split; assumption.
    + eapply emits_weaken; [|apply emits_random_choice]. intros d Hd.
      left. exact Hd.
  - intros domain Hdom.
    eapply emits_bind; [apply emits_random_choice|]. intros qtype Hq.
    apply emits_net_call. intros ok. split; assumption.
Qed.



(** The events a TCP generator may leave: sleeps, stream sockets, the
    5-second timeout, connects to a listed target and port, closes.  No
    send and no receive is among them. *)
Definition tcp_event (ev : event) : Prop :=
  match ev with
  | Sleep _ | Socket SOCK_STREAM _ | Close => True
  | SetTimeout seconds => seconds = 5%Z
  | Connect target port _ => In target targets /\ In port tcp_ports
  | _ => False
  end.

(** X10.  Whatever the environment answers and however long it runs,
    the TCP generator only sleeps, opens stream sockets with a 5-second
    timeout, connects to one of its 14 listed hosts on one of its 11
    listed ports, and closes: it never sends a byte and never reads one
    (the request of line 327 cannot be built). *)
Theorem X10_tcp_generator_connects_to_listed_hosts_and_never_sends
    (fuel n : nat) (e : env) (s : state) :
  exists evs,
    trace (snd (generator_loop (iteration Tcp fuel) n e s)) = trace s ++ evs /\
    Forall tcp_event evs /\
    existsb is_send evs = false.
Proof.
  destruct (emits_generator_loop e tcp_event (iteration Tcp fuel) n) with s
    as [(evs & Ht & Hf) _].
  - apply emits_iteration; [intros d; exact I|].
    cbn [act]. unfold tcp_act.
    eapply emits_bind; [apply emits_random_choice|]. intros target Ht.
    eapply emits_bind; [apply emits_random_choice|]. intros port Hp.
    eapply emits_bind; [apply emits_net_call; intros ok; exact I|].
    intros _ _.
    eapply emits_bind; [apply emits_emit; reflexivity|]. intros _ _.
    eapply emits_bind;
      [apply emits_net_call; intros ok; split; assumption|].
    intros _ _.
    apply emits_bind with (Q := fun _ => True);
      [|intros _ _; apply emits_emit; exact I].
    destruct (is_http_port port); [|apply emits_ret; exact I].
    eapply emits_bind; [apply emits_random_choice|]. intros request _.
    eapply emits_bind; [unfold bytes_format; apply emits_raise|].
    intros data Hdata. exact (False_ind _ Hdata).
  - exists evs. split; [exact Ht|]. split; [exact Hf|].
    clear Ht. induction Hf as [|ev rest Hev _ IH]; [reflexivity|].
    cbn [existsb]. rewrite IH. destruct ev; try reflexivity.
    destruct Hev.
Qed.

Lemma length_string_of_list l :
  String.length (string_of_list l) = List.length l.
Proof. induction l as [|c l IH]; cbn; [reflexivity | now rewrite IH]. Qed.

(** The payload the UDP act builds for a port. *)
Definition udp_payload_ok (port : Z) (payload : string) : Prop :=
  (port = 53%Z -> payload = dns_payload) /\
  (port = 123%Z -> payload = ntp_payload) /\
  (port <> 53%Z -> port <> 123%Z ->
   16 <= String.length payload <= 128).

(** The events a UDP generator may leave in environment [e]: sleeps,
    datagram sockets, closes, and datagrams to a listed port, addressed
    to 8.8.8.8 or to an address the library does not call private. *)
Definition udp_event (e : env) (ev : event) : Prop :=
  match ev with
  | Sleep _ | Socket SOCK_DGRAM _ | Close => True
  | Sendto payload ip port _ =>
      In port udp_ports /\
      (ip = "8.8.8.8" \/ is_private e ip = false) /\
      udp_payload_ok port payload
  | _ => False
  end.

(** X11.  Whatever the environment answers and however long it runs,
    the UDP generator only sleeps, opens datagram sockets, sends and
    closes.  Every datagram goes to one of the 9 listed ports, and either
    to 8.8.8.8 or to an address for which [is_private] is false, never
    to one it flags; to port 53 it carries the fixed DNS query, to port
    123 the fixed 48-byte NTP request, to any other port between 16 and
    128 bytes. *)
Theorem X11_udp_generator_never_targets_a_private_address
    (fuel n : nat) (e : env) (s : state) :
  (exists evs,
     trace (snd (generator_loop (iteration Udp fuel) n e s)) = trace s ++ evs /\
     Forall (udp_event e) evs) /\
  String.length dns_payload = 33 /\
  String.length ntp_payload = 48.
Proof.
  split; [|split; reflexivity].
  apply (emits_generator_loop e (udp_event e) (iteration Udp fuel) n).
  apply emits_iteration; [intros d; exact I|].
  cbn [act]. unfold udp_act.
  eapply emits_bind; [apply emits_net_call; intros ok; exact I|].
  intros _ _.
  eapply emits_bind; [apply emits_random_choice|]. intros port Hport.
  apply emits_bind with (Q := udp_payload_ok port).
  - destruct (port =? 53)%Z eqn:E53.
    + apply emits_ret. apply Z.eqb_eq in E53. subst port.
      repeat split; intros; try reflexivity; lia.
    + destruct (port =? 123)%Z eqn:E123.
      * apply emits_ret. apply Z.eqb_eq in E123. subst port.
        repeat split; intros; try reflexivity; lia.
      * apply Z.eqb_neq in E53, E123.
        eapply emits_bind; [apply (emits_random_randint e _ 16 128); lia|].
        intros len Hlen.
        eapply emits_bind.
        { apply (emits_replicateM e _ (Z.to_nat len) _ (fun _ => True)).
          unfold random_getrandbits8.
          eapply emits_bind; [apply emits_randbelow|].
          intros i _. apply emits_ret. exact I. }
        intros bs [Hbs _]. apply emits_ret. cbv beta in Hlen.
        repeat split; intros; try contradiction;
          rewrite length_string_of_list, Hbs; lia.
  - intros payload Hpayload.
    eapply emits_bind; [apply emits_random_random|]. intros c _.
    apply emits_bind with
      (Q := fun ip => ip = "8.8.8.8" \/ is_private e ip = false).
    + destruct (0.5 <? c)%float.
      * eapply emits_weaken; [|apply emits_get_random_ip].
        intros ip Hip. right. exact Hip.
      * apply emits_ret. left. reflexivity.
    + intros ip Hip.
      eapply emits_bind;
        [apply emits_net_call; intros ok; split; [|split]; assumption|].
      intros _ _. apply emits_emit. exact I.
Qed.

(** Runs that leave each kind of event: a DNS query under a label, an
    HTTP POST, a UDP datagram to a drawn address. *)
Example generator_runs :
  trace (snd (try_except_pass (iteration Dns 0) (gate_env 0.99%float)
                (tor_state "chaotic" 1.0%float true)))
    = [ Resolve "www.google.com" "A" true; Sleep 1.0%float ] /\
  trace (snd (try_except_pass (iteration Http 0) (gate_env 0.99%float)
                (tor_state "chaotic" 1.0%float false)))
    = [ HttpPost "https://httpbin.org/get"
          "Mozilla/5.0 (Windows NT 10.0; Win64; x64) AppleWebKit/537.36 (KHTML, like Gecko) Chrome/91.0.4472.124 Safari/537.36"
          "2024-01-01 00:00:00" "1000" true;
        Sleep 0.496%float ] /\
  trace (snd (try_except_pass (iteration Udp 1) (gate_env 0.99%float)
                (tor_state "chaotic" 1.0%float false)))
    = [ Socket SOCK_DGRAM true; Sendto dns_payload "1.1.1.1" 53 true; Close;
        Sleep 0.496%float ].
Proof. vm_compute. repeat split. Qed.

(** ** A successful iteration *)



(** ** Before the loop *)

(** The only exception that can leave a generator method is the one of
    its setup. *)
Lemma generate_escapes p fuel e s :
  escaped (fst (generate p fuel e s)) = true ->
  p = Dns /\ resolv_conf e = false.
Proof.
  pose proof (generator_loop_no_escape (iteration p fuel)
                (safe_iteration p fuel) fuel e s) as [Hl _].
  unfold generate, bind.
  destruct p; cbn [setup].
  - unfold dns_resolver_Resolver, bind, ask.
    destruct (resolv_conf e); cbn [ret raise]; intros H;
      [rewrite Hl in H; discriminate | split; reflexivity].
  - unfold requests_Session, ret. intros H. rewrite Hl in H. discriminate.
  - unfold ret. intros H. rewrite Hl in H. discriminate.
  - unfold ret. intros H. rewrite Hl in H. discriminate.
Qed.

(** X18.  The DNS generator builds its resolver before its loop and
    outside the [try] (line 190).  When the system has no usable
    resolver configuration the exception leaves [generate_dns_noise] at
    once: the thread is over before its first turn, with nothing sent,
    slept or counted.  With a usable configuration the method is its
    loop.  The HTTP, TCP and UDP generators have no step that can fail
    before their loop, so a missing resolver configuration is the only
    way an exception leaves a generator method. *)
Theorem X18_dns_generator_ends_without_resolver_configuration
    (fuel : nat) (e : env) (s : state) :
  (resolv_conf e = false ->
   generate_dns_noise fuel e s = (Raise OSError, s)) /\
  (resolv_conf e = true ->
   generate_dns_noise fuel e s
     = generator_loop (iteration Dns fuel) fuel e s) /\
  generate_http_noise fuel e s
    = generator_loop (iteration Http fuel) fuel e s /\
  generate_tcp_noise fuel e s
    = generator_loop (iteration Tcp fuel) fuel e s /\
  generate_udp_noise fuel e s
    = generator_loop (iteration Udp fuel) fuel e s /\
  (forall p, escaped (fst (generate p fuel e s)) = true ->
             p = Dns /\ resolv_conf e = false).
Proof.
  unfold generate_dns_noise, generate_http_noise, generate_tcp_noise,
    generate_udp_noise, generate.
  split; [|split; [|split; [|split; [|split]]]]; try reflexivity.
  - intros H. cbn [setup]. unfold dns_resolver_Resolver, bind, ask.
    rewrite H. reflexivity.
  - intros H. cbn [setup]. unfold dns_resolver_Resolver, bind, ask.
    rewrite H. reflexivity.
  - intros p. apply generate_escapes.
Qed.

Definition no_resolver_env : env :=
  {| rnd := fun _ => 0.25%float; pick := fun _ => 0; net := fun _ => true;
     cleared := fun _ => false; now := fun _ => "2024-01-01 00:00:00";
     is_private := fun _ => false; sigint := fun _ => false;
     resolv_conf := false |}.

Lemma X18_dns_generator_ends_without_resolver_configuration_witness :
  let s := tor_state "chaotic" 1.0%float false in
  generate_dns_noise 3 no_resolver_env s = (Raise OSError, s) /\
  trace (snd (generate_dns_noise 1 quiet_env s))
    = [ Resolve "google.com" "A" true; Sleep 0.2%float ].
Proof.
  intros s. split.
  - exact (proj1 (X18_dns_generator_ends_without_resolver_configuration
                    3 no_resolver_env s) eq_refl).
  - rewrite (proj1 (proj2
               (X18_dns_generator_ends_without_resolver_configuration
                  1 quiet_env s)) eq_refl).
    reflexivity.
Defined.
